(** * FSND back ends: the trivia API and the coffee-shop API

    A shallow embedding of the Flask route handlers of
    [projects/02_trivia_api/starter/backend/flaskr/__init__.py] and
    [projects/03_coffee_shop_full_stack/starter_code/backend/src/api.py].

    A view function is a computation over the database it runs against:
    it either returns a value or raises a Python exception, and hands back
    the database it leaves behind.  [abort(code)] raises an
    [HTTPException]; a bare [except:] catches every exception, including
    the one [abort] raised.  The application turns what a view produced
    into the HTTP response through its registered error handlers. *)

From Stdlib Require Import String Ascii ZArith Bool List Lia Sorted Permutation.
Import ListNotations.
Open Scope string_scope.
Open Scope Z_scope.
Set Warnings "-register-all".

(** ** Python values that cross the HTTP boundary *)

Module Py.

(** A Python [str]: a sequence of characters, each given by its Unicode
    code point. *)
Definition str : Type := list N.

(** The [str] a string literal of the source denotes; the literals of the
    source are ASCII. *)
Definition u (s : string) : str :=
  map N_of_ascii (list_ascii_of_string s).
Coercion u : string >-> str.

(** A dictionary key: Python dictionaries built by the handlers are keyed by
    strings (response envelopes) or by integers (the category mapping). *)
Inductive key :=
| KStr (s : string)
| KInt (z : Z).

(** JSON-serialisable Python values. *)
Inductive json :=
| JNone
| JBool (b : bool)
| JInt (z : Z)
| JStr (s : str)
| JList (l : list json)
| JDict (items : list (key * json)).

Definition key_eqb (a b : key) : bool :=
  match a, b with
  | KStr s, KStr t => String.eqb s t
  | KInt x, KInt y => Z.eqb x y
  | _, _ => false
  end.

(** [d.get(k)] on a dictionary given by its items. *)
Fixpoint dict_get (items : list (key * json)) (k : key) : option json :=
  match items with
  | [] => None
  | (k', v) :: rest => if key_eqb k' k then Some v else dict_get rest k
  end.

(** [d.update({k: v})]: an existing key keeps its position and takes the new
    value, a new key goes last. *)
Fixpoint dict_update (items : list (key * json)) (k : key) (v : json)
  : list (key * json) :=
  match items with
  | [] => [(k, v)]
  | (k', v') :: rest =>
      if key_eqb k' k then (k', v) :: rest
      else (k', v') :: dict_update rest k v
  end.

(** [json_get j k] reads field [k] of a JSON object, [None] when [j] is not
    an object or has no such field. *)
Definition json_get (j : json) (k : string) : option json :=
  match j with
  | JDict items => dict_get items (KStr k)
  | _ => None
  end.

(** [None -> null], as [jsonify] renders a nullable column. *)
Definition opt_str (o : option str) : json :=
  match o with Some s => JStr s | None => JNone end.

Definition opt_int (o : option Z) : json :=
  match o with Some z => JInt z | None => JNone end.

(** The index a slice bound denotes in a sequence of length [len]: a
    negative bound counts from the end, and every bound is clamped to
    [0..len]. *)
Definition slice_index (len i : Z) : Z :=
  if i <? 0 then Z.max 0 (len + i) else Z.min i len.

(** [l[start:stop]]. *)
Definition slice {A : Type} (l : list A) (start stop : Z) : list A :=
  let len := Z.of_nat (length l) in
  let lo := slice_index len start in
  let hi := slice_index len stop in
  firstn (Z.to_nat (hi - lo)) (skipn (Z.to_nat lo) l).

End Py.

(** ** Flask: exceptions, views, responses *)

Module Flask.
Import Py.

(** The exceptions the handlers can meet. *)
Inductive exn :=
| HTTPException (code : Z)          (* raised by [abort(code)] *)
| IndexError                        (* [random.choice] on an empty sequence *)
| AttributeError                    (* attribute access on [None] *)
| ArgumentError                     (* [in_(None)]: not a list of values *)
| KeyError                          (* [d[k]] on a missing key *)
| TypeError                         (* subscript of [None] *)
| MultipleResultsFound              (* [one_or_none()] with several rows *)
| IntegrityError                    (* a constraint of the schema refused a write *)
| DataError                         (* the database refused a malformed value *)
| AuthError (status_code : Z) (error : json).

Inductive result (A : Type) :=
| Ok (a : A)
| Raise (e : exn).
Arguments Ok {A} a.
Arguments Raise {A} e.

(** A computation against a store of type [S]. *)
Definition M (S A : Type) : Type := S -> result A * S.

Definition ret {S A} (a : A) : M S A := fun s => (Ok a, s).

Definition bind {S A B} (m : M S A) (k : A -> M S B) : M S B :=
  fun s =>
    match m s with
    | (Ok a, s') => k a s'
    | (Raise e, s') => (Raise e, s')
    end.

Definition raise {S A} (e : exn) : M S A := fun s => (Raise e, s).

(** [abort(code)] never returns. *)
Definition abort {S A} (code : Z) : M S A := raise (HTTPException code).

(** Read from the store. *)
Definition gets {S A} (f : S -> A) : M S A := fun s => (Ok (f s), s).

(** Replace the store (a committed write). *)
Definition modify {S} (f : S -> S) : M S unit := fun s => (Ok tt, f s).

(** [try: body except: handler] with a bare [except], which catches every
    exception.  What the body committed before it raised stays committed. *)
Definition try_except {S A} (body : M S A) (handler : M S A) : M S A :=
  fun s =>
    match body s with
    | (Ok a, s') => (Ok a, s')
    | (Raise _, s') => handler s'
    end.

(** Lift a Python value that may be [None] through an attribute access. *)
Definition attr {S A B} (o : option A) (f : A -> B) : M S B :=
  match o with
  | Some a => ret (f a)
  | None => raise AttributeError
  end.

Declare Scope flask_scope.
Delimit Scope flask_scope with flask.
Notation "x <- m ;; k" := (bind m (fun x => k))
  (at level 100, m at next level, right associativity) : flask_scope.
Notation "m ;;; k" := (bind m (fun _ => k))
  (at level 100, right associativity) : flask_scope.

(** An HTTP response: the status and the JSON body, [None] for the HTML
    page Werkzeug renders for an error no handler is registered for. *)
Record response := { status : Z; body : option json }.

(** Field [k] of the JSON object a response carries. *)
Definition field (r : response) (k : string) : option json :=
  match body r with
  | Some j => json_get j k
  | None => None
  end.

(** [jsonify(d)] answers 200 with the dictionary as its body. *)
Definition jsonify (items : list (key * json)) : response :=
  {| status := 200; body := Some (JDict items) |}.

(** The uniform error body of both applications. *)
Definition error_envelope (code : Z) (message : string) : response :=
  {| status := code;
     body := Some (JDict [ (KStr "success", JBool false);
                           (KStr "error", JInt code);
                           (KStr "message", JStr message) ]) |}.

Definition default_error_page (code : Z) : response :=
  {| status := code; body := None |}.

(** What an application registers: handlers by status code
    ([@app.errorhandler(404)]) and by exception class
    ([@app.errorhandler(AuthError)]). *)
Record app := {
  errorhandler_code : Z -> option response;
  errorhandler_class : exn -> option response
}.

(** An [HTTPException] goes to the handler of its code, or is rendered as
    it is. *)
Definition handle_http_exception (a : app) (code : Z) : response :=
  match errorhandler_code a code with
  | Some r => r
  | None => default_error_page code
  end.

(** Any other exception goes to the handler of its class; with none
    registered it becomes an [InternalServerError], which is an
    [HTTPException] of code 500. *)
Definition handle_exception (a : app) (e : exn) : response :=
  match e with
  | HTTPException code => handle_http_exception a code
  | _ =>
      match errorhandler_class a e with
      | Some r => r
      | None => handle_http_exception a 500
      end
  end.

(** Dispatch one request to its view function. *)
Definition full_dispatch_request {S} (a : app) (view : M S response)
  : S -> response * S :=
  fun s =>
    match view s with
    | (Ok r, s') => (r, s')
    | (Raise e, s') => (handle_exception a e, s')
    end.

End Flask.

(** ** SQL: ordering, primary-key lookup, [ILIKE] *)

Module Sql.
Import Py Flask.

Section OrderBy.
Context {A : Type} (key : A -> Z).

Fixpoint insert_by (x : A) (l : list A) : list A :=
    match l with
    | [] => [x]
    | y :: l' => if key x <? key y then x :: l else y :: insert_by x l'
    end.

  (** [query.order_by(key)]: ascending, rows of equal key in table order. *)
Definition order_by (l : list A) : list A :=
    fold_right insert_by [] l.

  (** [query.get(k)]: the row of primary key [k], if any. *)
Definition get (k : Z) (l : list A) : option A :=
    find (fun x => key x =? k) l.
End OrderBy.

(** Rows in ascending order of their key. *)
Definition ascending {A : Type} (key : A -> Z) (l : list A) : Prop :=
  StronglySorted (fun a b => key a <= key b) l.

(** [query.one_or_none()] on the rows a query selects. *)
Definition one_or_none {S A} (rows : list A) : M S (option A) :=
  match rows with
  | [] => ret None
  | [x] => ret (Some x)
  | _ :: _ :: _ => raise MultipleResultsFound
  end.

(** [column == value] on a nullable integer column; comparing with [None]
    is rendered [IS NULL]. *)
Definition col_eqb (column value : option Z) : bool :=
  match column, value with
  | Some x, Some y => x =? y
  | None, None => true
  | _, _ => false
  end.

(** A [LIKE] pattern: [%] stands for any run of characters, [_] for any one
    character, a backslash takes the next character literally. *)
Inductive like_tok :=
| Any
| One
| Lit (c : N).

(** The code points of [%], [_] and the backslash. *)
Definition percent : N := 37%N.
Definition underscore : N := 95%N.
Definition backslash : N := 92%N.

Fixpoint like_pattern (p : str) : option (list like_tok) :=
  match p with
  | [] => Some []
  | c :: p' =>
      if N.eqb c percent then option_map (cons Any) (like_pattern p')
      else if N.eqb c underscore then option_map (cons One) (like_pattern p')
      else if N.eqb c backslash then
        match p' with
        | [] => None
        | d :: p'' => option_map (cons (Lit d)) (like_pattern p'')
        end
      else option_map (cons (Lit c)) (like_pattern p')
  end.

(** The characters a [LIKE] pattern reads as something else than
    themselves. *)
Definition like_meta (c : N) : bool :=
  N.eqb c percent || N.eqb c underscore || N.eqb c backslash.

Section Folding.
(** The case folding of the database: [ILIKE] compares the characters of
    the pattern and of the text after folding each with the [lower] of the
    database's locale, whatever letters that locale knows. *)
Variable lower : N -> N.

Fixpoint like_match (p : list like_tok) (s : str) : bool :=
  match p with
  | [] => match s with [] => true | _ :: _ => false end
  | Any :: p' =>
      (fix star (s : str) : bool :=
         like_match p' s
         || match s with [] => false | _ :: s' => star s' end) s
  | One :: p' =>
      match s with [] => false | _ :: s' => like_match p' s' end
  | Lit c :: p' =>
      match s with
      | [] => false
      | d :: s' => N.eqb (lower c) (lower d) && like_match p' s'
      end
  end.

(** [column.ilike(pattern)] on a nullable text column, for a pattern that
    parsed: a null column matches nothing. *)
Definition ilike (column : option str) (p : list like_tok) : bool :=
  match column with
  | Some text => like_match p text
  | None => false
  end.

(** Two pattern tokens that differ in the letter case of a literal at
    most. *)
Definition tok_ci (a b : like_tok) : Prop :=
  match a, b with
  | Any, Any => True
  | One, One => True
  | Lit c, Lit d => lower c = lower d
  | _, _ => False
  end.

(** Two patterns parsed alike, letter case apart. *)
Definition parsed_alike (p p' : option (list like_tok)) : Prop :=
  match p, p' with
  | Some l, Some l' => Forall2 tok_ci l l'
  | None, None => True
  | _, _ => False
  end.

(** [t] is a prefix of [s], letter case apart. *)
Fixpoint prefix_ci (t s : str) : bool :=
  match t, s with
  | [], _ => true
  | _ :: _, [] => false
  | c :: t', d :: s' => N.eqb (lower c) (lower d) && prefix_ci t' s'
  end.

(** [t] occurs in [s] as a substring, letter case apart. *)
Fixpoint contains_ci (t s : str) : bool :=
  prefix_ci t s || match s with [] => false | _ :: s' => contains_ci t s' end.

(** The folding neither makes nor unmakes one of the characters a pattern
    reads specially: they are not letters. *)
Definition keeps_meta : Prop :=
  forall c m, like_meta m = true -> N.eqb (lower c) m = N.eqb c m.
End Folding.

End Sql.

(** ** The trivia API *)

Module Trivia.
Import Py Flask Sql.
Local Open Scope flask_scope.

Module Question.
Record t := {
    id : Z;
    question : option str;
    answer : option str;
    category : option Z;
    difficulty : option Z
  }.

  (** Modelled from the spec: [Question.format] lives in [models.py], which
      is not among the sources; the spec's data model gives a question its
      id, question text, answer text, category and difficulty, and the
      handlers return "formatted" questions, so [format] is the dictionary
      of these five fields. *)
Definition format (q : t) : json :=
    JDict [ (KStr "id", JInt (id q));
            (KStr "question", opt_str (question q));
            (KStr "answer", opt_str (answer q));
            (KStr "category", opt_int (category q));
            (KStr "difficulty", opt_int (difficulty q)) ].
End Question.

Module Category.
Record t := { id : Z; type : string }.
End Category.

(** The two tables, rows in the order the database returns them when no
    ordering is asked for. *)
Record db := {
  questions : list Question.t;
  categories : list Category.t
}.

(** No question of the store has this id. *)
Definition absent (question_id : Z) (d : db) : Prop :=
  forall q, In q (questions d) -> Question.id q <> question_id.

(** The store less the questions of this id. *)
Definition without (question_id : Z) (d : db) : db :=
  {| questions :=
       filter (fun r => negb (Question.id r =? question_id)) (questions d);
     categories := categories d |}.

(** What a view reads of the request: the [page] query parameter as
    [request.args.get("page", type=int)] converts it ([None] when absent or
    not an integer), and the JSON body as [request.get_json()] returns it
    ([None] when there is none).  A body that does not parse makes
    [get_json] raise instead of returning; such a request is not a value of
    this type, and what is proved of the views that read the body is proved
    of the requests whose body [get_json] returns. *)
Record request (B : Type) := {
  args_page : option Z;
  get_json : option B
}.
Arguments args_page {B} r.
Arguments get_json {B} r.

(** The body of [POST /questions], with the fields the view reads;
    [body.get(k, None)] is [None] for a missing field. *)
Record question_form := {
  form_question : option str;
  form_answer : option str;
  form_difficulty : option Z;
  form_category : option Z;
  form_searchTerm : option str
}.

(** The body of [POST /quizzes]: [quiz_category] is a dictionary read for
    its [id]. *)
Record quiz_form := {
  previous_questions : option (list Z);
  quiz_category : option (option Z)
}.

Definition QUESTIONS_PER_PAGE : Z := 10.

Definition len {A} (l : list A) : Z := Z.of_nat (length l).

(** [request.args.get("page", default, type=int)] *)
Definition args_get_page {B} (request : request B) (default : Z) : Z :=
  match args_page request with Some p => p | None => default end.

(** Returns questions to be displayed on current page. *)
Definition paginated_questions {B} (request : request B)
    (selection : list Question.t) : M db (list json) :=
  let page := args_get_page request 1 in
  let start := (page - 1) * QUESTIONS_PER_PAGE in
  let end_ := start + QUESTIONS_PER_PAGE in
  let questions := map Question.format selection in
  let current_questions := slice questions start end_ in
  ret current_questions.

(** Returns the [{id: type}] dictionary of the categories. *)
Definition get_categories : M db (list (key * json)) :=
  categories <- gets (fun d => order_by Category.id (categories d)) ;;
  ret (fold_left
         (fun categories_dict category =>
            dict_update categories_dict (KInt (Category.id category))
                        (JStr (Category.type category)))
         categories []).

(** The loop of [get_categories], from any dictionary on. *)
Definition collect (acc : list (key * json)) (rows : list Category.t)
  : list (key * json) :=
  fold_left
    (fun categories_dict category =>
       dict_update categories_dict (KInt (Category.id category))
                   (JStr (Category.type category)))
    rows acc.

(** [GET /categories] *)
Definition retrieve_categories : M db response :=
  categories <- get_categories ;;
  if len categories =? 0 then abort 404
  else ret (jsonify [ (KStr "success", JBool true);
                      (KStr "categories", JDict categories) ]).

(** [GET /questions] *)
Definition retrieve_questions {B} (request : request B) : M db response :=
  selection <- gets (fun d => order_by Question.id (questions d)) ;;
  current_questions <- paginated_questions request selection ;;
  if len current_questions =? 0 then abort 404
  else
    total <- gets (fun d => len (questions d)) ;;
    categories <- get_categories ;;
    ret (jsonify [ (KStr "success", JBool true);
                   (KStr "questions", JList current_questions);
                   (KStr "total_questions", JInt total);
                   (KStr "categories", JDict categories);
                   (KStr "current_category", JStr "All") ]).

(** Modelled from the spec: [Question.delete] lives in [models.py], which is
    not among the sources; the spec's data access layer removes the entity,
    which is identified by its unique id. *)
Definition Question_delete (q : Question.t) : M db unit :=
  modify (fun d =>
    {| questions :=
         filter (fun r => negb (Question.id r =? Question.id q)) (questions d);
       categories := categories d |}).

(** Modelled from the spec: [Question.insert] lives in [models.py], which is
    not among the sources; by the spec's data model the id is unique and
    auto-assigned and the category is a foreign key to Category, so a
    category that no row carries is refused. *)
Definition Question_insert (question answer : option str)
    (difficulty category : option Z) : M db unit :=
  known <- gets (fun d =>
             match category with
             | Some c => existsb (fun k => Category.id k =? c) (categories d)
             | None => true
             end) ;;
  if known then
    modify (fun d =>
      let fresh := 1 + fold_right Z.max 0 (map Question.id (questions d)) in
      {| questions :=
           questions d ++
           [ {| Question.id := fresh;
                Question.question := question;
                Question.answer := answer;
                Question.category := category;
                Question.difficulty := difficulty |} ];
         categories := categories d |})
  else raise IntegrityError.

(** The [try] block of [delete_question]. *)
Definition delete_question_try {B} (request : request B) (question_id : Z)
  : M db response :=
  rows <- gets (fun d =>
            filter (fun q => Question.id q =? question_id) (questions d)) ;;
  question <- one_or_none rows ;;
  match question with
  | None => abort 404
  | Some question =>
      Question_delete question ;;;
      selection <- gets (fun d => order_by Question.id (questions d)) ;;
      current_questions <- paginated_questions request selection ;;
      ret (jsonify [ (KStr "success", JBool true);
                     (KStr "deleted", JInt question_id) ])
  end.

(** [DELETE /questions/<int:question_id>] *)
Definition delete_question {B} (request : request B) (question_id : Z)
  : M db response :=
  try_except (delete_question_try request question_id) (abort 422).

(** Truth value of an optional string: [None] and the empty string are
    false. *)
Definition truthy (o : option str) : bool :=
  match o with
  | Some (_ :: _) => true
  | Some [] => false
  | None => false
  end.

(** The term has no character that [LIKE] reads as a wildcard or as the
    escape. *)
Definition plain (term : str) : bool :=
  forallb (fun c => negb (like_meta c)) term.

(** The foreign key of the spec's data model: the category a question
    names has a row. *)
Definition referential_integrity (d : db) : Prop :=
  forall q c, In q (questions d) -> Question.category q = Some c ->
              exists k, In k (categories d) /\ Category.id k = c.

(** [GET /categories/{id}] finds a category under this id. *)
Definition category_known (category_id : Z) (d : db) : Prop :=
  exists c, In c (categories d) /\ Category.id c = category_id.

Section Folding.
(** The case folding of the database the application runs against. *)
Variable lower : N -> N.

(** [Question.query.order_by(Question.id).filter(Question.question.ilike(pattern))],
    run against the database each time the query is iterated. *)
Definition search_query (pattern : str) : M db (list Question.t) :=
  match like_pattern pattern with
  | None => raise DataError
  | Some p =>
      gets (fun d =>
        filter (fun q => ilike lower (Question.question q) p)
               (order_by Question.id (questions d)))
  end.

(** The text of the question contains the term, letter case apart. *)
Definition question_contains (term : str) (q : Question.t) : bool :=
  match Question.question q with
  | Some text => contains_ci lower term text
  | None => false
  end.

(** The search for the term selects the question. *)
Definition search_matches (term : str) (q : Question.t) : bool :=
  match like_pattern (u "%" ++ term ++ u "%")%list with
  | Some p => ilike lower (Question.question q) p
  | None => false
  end.

(** The [try] block of [create_questions]. *)
Definition create_questions_try (request : request question_form)
    (body : question_form) : M db response :=
  let new_question := form_question body in
  let new_answer := form_answer body in
  let new_difficulty := form_difficulty body in
  let new_category := form_category body in
  let search := form_searchTerm body in
  if truthy search then
    let selection :=
      search_query (u "%" ++ match search with Some s => s | None => u "" end
                          ++ u "%")%list in
    rows <- selection ;;
    current_questions <- paginated_questions request rows ;;
    all <- selection ;;
    ret (jsonify [ (KStr "success", JBool true);
                   (KStr "questions", JList current_questions);
                   (KStr "total_questions", JInt (len all));
                   (KStr "current_category", JStr "All") ])
  else
    Question_insert new_question new_answer new_difficulty new_category ;;;
    selection <- gets (fun d => order_by Question.id (questions d)) ;;
    current_questions <- paginated_questions request selection ;;
    ret (jsonify [ (KStr "success", JBool true) ]).

(** [POST /questions]; [body.get] on a missing body raises before the
    [try] is entered. *)
Definition create_questions (request : request question_form)
  : M db response :=
  body <- attr (get_json request) (fun b => b) ;;
  try_except (create_questions_try request body) (abort 422).
End Folding.

(** [GET /categories/<int:category_id>/questions] *)
Definition retrieve_questions_by_category {B} (request : request B)
    (category_id : Z) : M db response :=
  selection <- gets (fun d =>
                 filter (fun q => col_eqb (Question.category q) (Some category_id))
                        (questions d)) ;;
  current_questions <- paginated_questions request selection ;;
  if len current_questions =? 0 then abort 404
  else
    category <- gets (fun d => get Category.id category_id (categories d)) ;;
    current_category <- attr category Category.type ;;
    ret (jsonify [ (KStr "success", JBool true);
                   (KStr "questions", JList current_questions);
                   (KStr "total_questions", JInt (len current_questions));
                   (KStr "current_category", JStr current_category) ]).

(** [random.choice(seq)], with [r] the number the generator draws. *)
Definition choice {A} (r : nat) (seq : list A) : M db A :=
  if len seq =? 0 then raise IndexError
  else
    match nth_error seq (r mod length seq) with
    | Some x => ret x
    | None => raise IndexError
    end.

(** The questions [create_quiz] draws from: category 0 stands for every
    category. *)
Definition in_quiz_category (category_id : option Z) (q : Question.t) : bool :=
  if col_eqb category_id (Some 0) then true
  else col_eqb (Question.category q) category_id.

Definition not_in (ids : list Z) (q : Question.t) : bool :=
  negb (existsb (fun i => Question.id q =? i) ids).

(** [POST /quizzes].  The test [rand_question == None] of the source
    compares a row with [None] and never holds: [choice] returns a row or
    raises. *)
Definition create_quiz (r : nat) (request : request quiz_form)
  : M db response :=
  body <- attr (get_json request) (fun b => b) ;;
  let prev_questions := previous_questions body in
  category_id <- attr (quiz_category body) (fun c => c) ;;
  prev <- match prev_questions with
          | Some ids => ret ids
          | None => raise ArgumentError
          end ;;
  candidates <- gets (fun d =>
                  if col_eqb category_id (Some 0) then
                    filter (not_in prev) (questions d)
                  else
                    filter (fun q => col_eqb (Question.category q) category_id
                                     && not_in prev q)
                           (questions d)) ;;
  rand_question <- choice r candidates ;;
  ret (jsonify [ (KStr "success", JBool true);
                 (KStr "question", Question.format rand_question) ]).

(** The error handlers the application registers: 404, 422, 400 and 500. *)
Definition app : Flask.app := {|
  errorhandler_code := fun code =>
    if code =? 404 then Some (error_envelope 404 "resource not found")
    else if code =? 422 then Some (error_envelope 422 "unprocessable")
    else if code =? 400 then Some (error_envelope 400 "bad request")
    else if code =? 500 then Some (error_envelope 500 "internal server error")
    else None;
  errorhandler_class := fun _ => None
|}.

(** The response to a request and the database after it. *)
Definition serve (view : M db response) (d : db) : response * db :=
  full_dispatch_request app view d.

End Trivia.

(** ** The coffee-shop API *)

Module CoffeeShop.
Import Py Flask Sql.
Local Open Scope flask_scope.

Module Drink.
Record t := { id : Z; title : option string; recipe : string }.
End Drink.

(** A write the session committed. *)
Inductive write :=
| Inserted (d : Drink.t)
| Updated (d : Drink.t)
| Deleted (id : Z).

(** The drink table, and the writes committed so far, oldest first. *)
Record db := {
  drinks : list Drink.t;
  journal : list write
}.

(** The body of [POST /drinks] and [PATCH /drinks/<id>]: a field is [None]
    when the key is missing, [Some None] when it is [null]. *)
Record drink_form := {
  form_title : option (option string);
  form_recipe : option json
}.

(** What a view reads of the request.  Modelled from the spec:
    [requires_auth] lives in [auth/auth.py], which is not among the sources;
    the spec makes authorization an opaque bearer-token check performed
    before the handler body runs, whose failure carries its own status code
    and message, so a request answers, for each permission, with the token's
    payload or with the status and body of the [AuthError]. *)
Record request := {
  auth : string -> json + Z * json;
  get_json : option drink_form
}.

Definition requires_auth {A} (permission : string)
    (f : json -> request -> M db A) (request : request) : M db A :=
  match auth request permission with
  | inl payload => f payload request
  | inr (status_code, error) => raise (AuthError status_code error)
  end.

Section Api.
  (** [json.dumps], and the two representations of a drink, which
      [database/models.py] (not among the sources) defines. *)
Variable json_dumps : json -> string.
Variable long short : Drink.t -> json.

Definition lookup (drink_id : Z) : M db (option Drink.t) :=
    rows <- gets (fun d => filter (fun x => Drink.id x =? drink_id) (drinks d)) ;;
    one_or_none rows.

  (** Modelled from the spec: [Drink.insert], [Drink.update] and
      [Drink.delete] live in [database/models.py], which is not among the
      sources; the spec's data access layer inserts, updates and deletes
      the entity its id identifies. *)
Definition Drink_insert (title : option string) (recipe : string)
    : M db Drink.t :=
    fresh <- gets (fun d => 1 + fold_right Z.max 0 (map Drink.id (drinks d))) ;;
    let row := {| Drink.id := fresh; Drink.title := title;
                  Drink.recipe := recipe |} in
    modify (fun d => {| drinks := drinks d ++ [row];
                        journal := journal d ++ [Inserted row] |}) ;;;
    ret row.

Definition Drink_update (drink : Drink.t) : M db unit :=
    modify (fun d =>
      {| drinks := map (fun x => if Drink.id x =? Drink.id drink
                                 then drink else x) (drinks d);
         journal := journal d ++ [Updated drink] |}).

Definition Drink_delete (drink : Drink.t) : M db unit :=
    modify (fun d =>
      {| drinks := filter (fun x => negb (Drink.id x =? Drink.id drink))
                          (drinks d);
         journal := journal d ++ [Deleted (Drink.id drink)] |}).

  (** [GET /drinks] *)
Definition retrieve_drinks (request : request) : M db response :=
    drinks <- gets drinks ;;
    if Z.of_nat (length drinks) =? 0 then abort 404
    else ret (jsonify [ (KStr "success", JBool true);
                        (KStr "drinks", JList (map short drinks)) ]).

  (** [GET /drinks-detail] *)
Definition retrieve_drinks_detail : request -> M db response :=
    requires_auth "get:drinks-detail" (fun self request =>
      drinks <- gets drinks ;;
      if Z.of_nat (length drinks) =? 0 then abort 404
      else ret (jsonify [ (KStr "success", JBool true);
                          (KStr "drinks", JList (map long drinks)) ])).

  (** [POST /drinks] *)
Definition create_drinks : request -> M db response :=
    requires_auth "post:drinks" (fun self request =>
      let body := get_json request in
      try_except
        (body <- match body with
                 | Some b => ret b
                 | None => raise TypeError
                 end ;;
         title <- match form_title body with
                  | Some t => ret t
                  | None => raise KeyError
                  end ;;
         recipe <- match form_recipe body with
                   | Some r => ret r
                   | None => raise KeyError
                   end ;;
         new_drink <- Drink_insert title (json_dumps recipe) ;;
         ret (jsonify [ (KStr "success", JBool true);
                        (KStr "drinks", JList [long new_drink]) ]))
        (abort 422)).

  (** [PATCH /drinks/<int:drink_id>] *)
Definition update_drinks (drink_id : Z) : request -> M db response :=
    requires_auth "patch:drinks" (fun self request =>
      drink <- lookup drink_id ;;
      match drink with
      | None => abort 404
      | Some drink =>
          try_except
            (body <- attr (get_json request) (fun b => b) ;;
             let title := match form_title body with
                          | Some t => t
                          | None => None
                          end in
             let recipe := match form_recipe body with
                           | Some r => r
                           | None => JNone
                           end in
             let drink := {| Drink.id := Drink.id drink;
                             Drink.title := title;
                             Drink.recipe := json_dumps recipe |} in
             Drink_update drink ;;;
             ret (jsonify [ (KStr "success", JBool true);
                            (KStr "drinks", JList [long drink]) ]))
            (abort 422)
      end).

  (** [DELETE /drinks/<int:drink_id>] *)
Definition delete_drinks (drink_id : Z) : request -> M db response :=
    requires_auth "delete:drinks" (fun self request =>
      drink <- lookup drink_id ;;
      match drink with
      | None => abort 404
      | Some drink =>
          try_except
            (Drink_delete drink ;;;
             ret (jsonify [ (KStr "success", JBool true);
                            (KStr "delete", JInt (Drink.id drink)) ]))
            (abort 422)
      end).

End Api.

(** The error handlers the application registers: 422, 404 and
    [AuthError], whose response echoes the error it carries. *)
Definition app : Flask.app := {|
  errorhandler_code := fun code =>
    if code =? 422 then Some (error_envelope 422 "unprocessable")
    else if code =? 404 then Some (error_envelope 404 "resource not found")
    else None;
  errorhandler_class := fun e =>
    match e with
    | AuthError status_code error =>
        Some {| status := status_code; body := Some error |}
    | _ => None
    end
|}.

Definition serve (view : M db response) (d : db) : response * db :=
  full_dispatch_request app view d.

End CoffeeShop.

(** ** Sample stores and requests *)

Module Sample.
Import Py Flask.

(** The folding of the letters A to Z, every other character left as it
    is: the [lower] of a database whose locale knows the ASCII letters
    only. *)
Definition ascii_lower (c : N) : N :=
  if (N.leb 65 c && N.leb c 90)%bool then (c + 32)%N else c.

(** The folding of a locale that also knows the accented capitals of
    Latin-1 (code points 192 to 222, the multiplication sign apart). *)
Definition latin_lower (c : N) : N :=
  if (N.leb 65 c && N.leb c 90)%bool then (c + 32)%N
  else if (N.leb 192 c && N.leb c 222 && negb (N.eqb c 215))%bool
       then (c + 32)%N
       else c.

(** A store with the one question "CAFE?", its E with an acute accent
    (code point 201). *)
Definition cafe_db : Trivia.db :=
  {| Trivia.questions :=
       [ {| Trivia.Question.id := 1;
            Trivia.Question.question := Some [67; 65; 70; 201; 63]%N;
            Trivia.Question.answer := None;
            Trivia.Question.category := None;
            Trivia.Question.difficulty := None |} ];
     Trivia.categories := [] |}.

(** [POST /questions] with the search term "cafe", its e with an acute
    accent (code point 233). *)
Definition search_cafe : Trivia.request Trivia.question_form :=
  {| Trivia.args_page := None;
     Trivia.get_json :=
       Some {| Trivia.form_question := None;
               Trivia.form_answer := None;
               Trivia.form_difficulty := None;
               Trivia.form_category := None;
               Trivia.form_searchTerm := Some [99; 97; 102; 233]%N |} |}.

Definition row (i : Z) (text : string) (c : Z) : Trivia.Question.t :=
  {| Trivia.Question.id := i;
     Trivia.Question.question := Some (u text);
     Trivia.Question.answer := Some (u "42");
     Trivia.Question.category := Some c;
     Trivia.Question.difficulty := Some 1 |}.

(** Twelve questions, eleven of them in category 1, not stored in id
    order. *)
Definition trivia_db : Trivia.db :=
  {| Trivia.questions :=
       [ row 2 "Which film has the Title role played by a dog?" 1;
         row 1 "What is the title of the first book?" 1;
         row 3 "How many moons has Mars?" 1;
         row 4 "What boils at 100 degrees?" 1;
         row 5 "What is 100% of nothing?" 1;
         row 6 "Who wrote snake_case first?" 1;
         row 7 "What is the heaviest organ?" 1;
         row 8 "Which gas do plants take in?" 1;
         row 9 "What is a TITLE deed?" 1;
         row 10 "How many bones has a shark?" 1;
         row 11 "What is the speed of light?" 1;
         row 12 "Who painted the Mona Lisa?" 2 ];
     Trivia.categories :=
       [ {| Trivia.Category.id := 2; Trivia.Category.type := "Art" |};
         {| Trivia.Category.id := 1; Trivia.Category.type := "Science" |} ] |}.

(** The categories, and no question yet. *)
Definition no_questions_db : Trivia.db :=
  {| Trivia.questions := [];
     Trivia.categories := Trivia.categories trivia_db |}.

(** [GET ...?page=n] *)
Definition get_page (n : Z) : Trivia.request unit :=
  {| Trivia.args_page := Some n; Trivia.get_json := None |}.

(** A request without query parameters or body. *)
Definition bare : Trivia.request unit :=
  {| Trivia.args_page := None; Trivia.get_json := None |}.

(** [POST /questions] with [{"searchTerm": term}]. *)
Definition search (term : string) : Trivia.request Trivia.question_form :=
  {| Trivia.args_page := None;
     Trivia.get_json :=
       Some {| Trivia.form_question := None;
               Trivia.form_answer := None;
               Trivia.form_difficulty := None;
               Trivia.form_category := None;
               Trivia.form_searchTerm := Some (u term) |} |}.

(** [POST /questions] with an empty [searchTerm] beside the fields of a
    question. *)
Definition blank_search : Trivia.request Trivia.question_form :=
  {| Trivia.args_page := None;
     Trivia.get_json :=
       Some {| Trivia.form_question := Some (u "What is the largest country?");
               Trivia.form_answer := Some (u "Russia");
               Trivia.form_difficulty := Some 2;
               Trivia.form_category := Some 1;
               Trivia.form_searchTerm := Some (u "") |} |}.

(** [POST /quizzes] with the previous questions and the category id. *)
Definition quiz (prev : list Z) (category_id : Z)
  : Trivia.request Trivia.quiz_form :=
  {| Trivia.args_page := None;
     Trivia.get_json :=
       Some {| Trivia.previous_questions := Some prev;
               Trivia.quiz_category := Some (Some category_id) |} |}.

Definition coffee_db : CoffeeShop.db :=
  {| CoffeeShop.drinks :=
       [ {| CoffeeShop.Drink.id := 1;
            CoffeeShop.Drink.title := Some "water";
            CoffeeShop.Drink.recipe := "[]" |} ];
     CoffeeShop.journal := [] |}.

(** A request whose token carries every permission. *)
Definition barista : CoffeeShop.request :=
  {| CoffeeShop.auth := fun _ => inl JNone;
     CoffeeShop.get_json := None |}.

(** A request whose token is refused for every permission. *)
Definition stranger : CoffeeShop.request :=
  {| CoffeeShop.auth := fun _ =>
       inr (401, JDict [ (KStr "code", JStr "invalid_header");
                         (KStr "description", JStr "Unable to parse") ]);
     CoffeeShop.get_json := None |}.

(** A permitted request with a body. *)
Definition order (title : option (option string)) (recipe : option json)
  : CoffeeShop.request :=
  {| CoffeeShop.auth := fun _ => inl JNone;
     CoffeeShop.get_json :=
       Some {| CoffeeShop.form_title := title;
               CoffeeShop.form_recipe := recipe |} |}.

Definition water : CoffeeShop.Drink.t :=
  {| CoffeeShop.Drink.id := 1;
     CoffeeShop.Drink.title := Some "water";
     CoffeeShop.Drink.recipe := "[]" |}.

(** A stand-in for [json.dumps] that tells [None] from the rest. *)
Definition dumps (j : json) : string :=
  match j with
  | JNone => "null"
  | _ => "[...]"
  end.

(** A stand-in for the representations of a drink: its id and title. *)
Definition repr (x : CoffeeShop.Drink.t) : json :=
  JDict [ (KStr "id", JInt (CoffeeShop.Drink.id x));
          (KStr "title", opt_str (option_map u (CoffeeShop.Drink.title x))) ].

End Sample.

(** * Properties *)

(** ** Slices *)

Module PyFacts.
Import Py.

Lemma slice_index_range (len i : Z) :
  0 <= len -> 0 <= slice_index len i <= len.
Proof.
  intros Hlen. unfold slice_index.
  destruct (i <? 0) eqn:Hi; [apply Z.ltb_lt in Hi | apply Z.ltb_ge in Hi]; lia.
Qed.

(** A slice is never longer than the distance between its bounds. *)
Lemma slice_length {A} (l : list A) (start stop : Z) :
  start <= stop ->
  (length (slice l start stop) <= Z.to_nat (stop - start))%nat.
Proof.
  intros Hle. unfold slice, slice_index.
  rewrite length_firstn.
  destruct (start <? 0) eqn:Ha; destruct (stop <? 0) eqn:Hb;
    try apply Z.ltb_lt in Ha; try apply Z.ltb_ge in Ha;
    try apply Z.ltb_lt in Hb; try apply Z.ltb_ge in Hb; lia.
Qed.

(** A slice that starts at or after the end is empty. *)
Lemma slice_beyond {A} (l : list A) (start stop : Z) :
  Z.of_nat (length l) <= start -> slice l start stop = [].
Proof.
  intros Hlen. unfold slice, slice_index.
  assert (Hs : (start <? 0) = false) by (apply Z.ltb_ge; lia).
  rewrite Hs.
  rewrite skipn_all2 by lia.
  apply firstn_nil.
Qed.

(** With bounds that count from the front, a slice drops [start] items and
    keeps the next [stop - start]. *)
Lemma slice_front {A} (l : list A) (start stop : Z) :
  0 <= start <= stop ->
  slice l start stop = firstn (Z.to_nat (stop - start)) (skipn (Z.to_nat start) l).
Proof.
  intros [H0 Hle]. unfold slice, slice_index.
  assert (Hs : (start <? 0) = false) by (apply Z.ltb_ge; lia).
  assert (Ht : (stop <? 0) = false) by (apply Z.ltb_ge; lia).
  rewrite Hs, Ht.
  destruct (Z_le_gt_dec (Z.of_nat (length l)) start) as [Hbig | Hsmall].
  - rewrite !skipn_all2 by lia. now rewrite !firstn_nil.
  - replace (Z.min start (Z.of_nat (length l))) with start by lia.
    destruct (Z_le_gt_dec stop (Z.of_nat (length l))) as [Hin | Hout].
    + now replace (Z.min stop (Z.of_nat (length l))) with stop by lia.
    + replace (Z.min stop (Z.of_nat (length l))) with (Z.of_nat (length l)) by lia.
      rewrite !firstn_all2; try reflexivity; rewrite length_skipn; lia.
Qed.

End PyFacts.

(** ** Ordering and [ILIKE] *)

Module SqlFacts.
Import Py Flask Sql.
Local Open Scope list_scope.

Section OrderBy.
Context {A : Type} (key : A -> Z).

Lemma filter_insert_by (f : A -> bool) (x : A) (l : list A) :
    length (filter f (insert_by key x l)) = length (filter f (x :: l)).
  Proof.
    induction l as [| y l IH]; [reflexivity | ].
    cbn [insert_by]. destruct (key x <? key y); [reflexivity | ].
    cbn [filter] in *.
    destruct (f y), (f x); cbn [length] in *; congruence.
  Qed.

  (** Ordering keeps the number of rows a filter selects. *)
Lemma filter_order_by (f : A -> bool) (l : list A) :
    length (filter f (order_by key l)) = length (filter f l).
  Proof.
    induction l as [| x l IH]; [reflexivity | ].
    unfold order_by in *. cbn [fold_right].
    rewrite filter_insert_by. cbn [filter].
    destruct (f x); cbn [length]; congruence.
  Qed.

Lemma length_order_by (l : list A) :
    length (order_by key l) = length l.
  Proof.
    pose proof (filter_order_by (fun _ => true) l) as H.
    now rewrite !forallb_filter_id in H by (apply forallb_forall; auto).
  Qed.

Lemma in_insert_by (x y : A) (l : list A) :
    In y (insert_by key x l) <-> y = x \/ In y l.
  Proof.
    induction l as [| z l IH]; cbn [insert_by In]; [intuition | ].
    destruct (key x <? key z); cbn [In]; rewrite ?IH; intuition.
  Qed.

  (** Ordering keeps the rows. *)
Lemma in_order_by (y : A) (l : list A) :
    In y (order_by key l) <-> In y l.
  Proof.
    induction l as [| x l IH]; [reflexivity | ].
    unfold order_by in *. cbn [fold_right In].
    rewrite in_insert_by, IH. intuition.
  Qed.
End OrderBy.

(** A filter that refuses every row selects none. *)
Lemma filter_none {A} (f : A -> bool) (l : list A) :
  (forall x, In x l -> f x = false) -> filter f l = [].
Proof.
  induction l as [| x l IH]; intros H; [reflexivity | ].
  cbn [filter]. rewrite (H x (or_introl eq_refl)).
  apply IH. intros y Hy. apply H. now right.
Qed.

(** Under a unique key, the filter on a row's key selects that row alone. *)
Lemma filter_unique {A} (key : A -> Z) (l : list A) (x : A) :
  NoDup (map key l) -> In x l ->
  filter (fun r => key r =? key x) l = [x].
Proof.
  induction l as [| y l IH]; intros Hnd Hin; [contradiction | ].
  cbn [map] in Hnd. inversion Hnd as [| ? ? Hnotin Hnd']; subst.
  cbn [filter]. destruct Hin as [-> | Hin].
  - rewrite Z.eqb_refl. f_equal.
    apply filter_none. intros r Hr.
    apply Z.eqb_neq. intros Heq. apply Hnotin.
    rewrite <- Heq. now apply in_map.
  - assert (Hne : key y <> key x).
    { intros Heq. apply Hnotin. rewrite Heq. now apply in_map. }
    apply Z.eqb_neq in Hne. rewrite Hne. now apply IH.
Qed.

(** *** [ILIKE] against case-blind substring search *)

(** A run of characters none of which is special parses to itself. *)
Lemma like_pattern_plain (t rest : str) (toks : list like_tok) :
  forallb (fun c => negb (like_meta c)) t = true ->
  like_pattern rest = Some toks ->
  like_pattern (t ++ rest) = Some (map Lit t ++ toks).
Proof.
  intros Hplain Hrest.
  induction t as [| c t IH]; [exact Hrest | ].
  cbn [forallb] in Hplain. apply andb_true_iff in Hplain as [Hc Ht].
  unfold like_meta in Hc. apply negb_true_iff in Hc.
  apply orb_false_iff in Hc as [Hc Hbs].
  apply orb_false_iff in Hc as [Hpc Hus].
  cbn [List.app like_pattern map]. rewrite Hpc, Hus, Hbs, (IH Ht).
  reflexivity.
Qed.

(** A pattern that ends in [%] always parses: the [%] is either a wildcard
    or the character a final backslash escapes. *)
Lemma like_pattern_percent (n : nat) (t : str) :
  (length t <= n)%nat ->
  like_pattern (t ++ [percent]) <> None.
Proof.
  revert t. induction n as [| n IH]; intros t Hlen.
  - destruct t; [discriminate | cbn in Hlen; lia].
  - destruct t as [| c t]; [discriminate | ].
    cbn [length] in Hlen.
    assert (Htail : like_pattern (t ++ [percent]) <> None)
      by (apply IH; lia).
    cbn [List.app like_pattern].
    destruct (N.eqb c percent); [ | destruct (N.eqb c underscore);
      [ | destruct (N.eqb c backslash) ] ].
    + destruct (like_pattern (t ++ [percent])); [discriminate | easy].
    + destruct (like_pattern (t ++ [percent])); [discriminate | easy].
    + destruct t as [| d t]; cbn [List.app].
      * discriminate.
      * assert (Htail' : like_pattern (t ++ [percent]) <> None)
          by (apply IH; cbn [length] in Hlen; lia).
        destruct (like_pattern (t ++ [percent])); [discriminate | easy].
    + destruct (like_pattern (t ++ [percent])); [discriminate | easy].
Qed.

Section Folding.
Variable lower : N -> N.

(** How a leading [%] matches: here, or one character further on. *)
Lemma like_match_any (p : list like_tok) (s : str) :
  like_match lower (Any :: p) s
  = like_match lower p s
    || match s with
       | [] => false
       | _ :: s' => like_match lower (Any :: p) s'
       end.
Proof. destruct s; reflexivity. Qed.

Lemma like_match_any_end (s : str) : like_match lower [Any] s = true.
Proof.
  induction s as [| c s IH]; [reflexivity | ].
  rewrite like_match_any. rewrite IH. apply orb_true_r.
Qed.

Lemma like_match_lits (t s : str) :
  like_match lower (map Lit t ++ [Any]) s = prefix_ci lower t s.
Proof.
  revert s. induction t as [| c t IH]; intros s.
  - cbn [map List.app prefix_ci]. apply like_match_any_end.
  - destruct s as [| d s]; [reflexivity | ].
    cbn [map List.app like_match prefix_ci]. now rewrite IH.
Qed.

(** [%t%] with [t] taken literally matches the texts [t] occurs in. *)
Lemma like_match_contains (t s : str) :
  like_match lower (Any :: map Lit t ++ [Any]) s = contains_ci lower t s.
Proof.
  induction s as [| d s IH].
  - rewrite like_match_any, like_match_lits. reflexivity.
  - rewrite like_match_any, like_match_lits, IH. reflexivity.
Qed.

(** [prefix_ci] and [contains_ci] say what their names say. *)
Lemma prefix_ci_spec (t s : str) :
  prefix_ci lower t s = true <->
  exists post, map lower s = (map lower t ++ post)%list.
Proof.
  revert s. induction t as [| c t IH]; intros s.
  - cbn. split; [intros _; now exists (map lower s) | reflexivity].
  - destruct s as [| d s]; cbn [prefix_ci map List.app].
    + split; [discriminate | intros [post H]; discriminate].
    + rewrite andb_true_iff, N.eqb_eq, IH. split.
      * intros [Hc [post H]]. exists post. now rewrite H, Hc.
      * intros [post H]. injection H as Hd Hs. split; [easy | now exists post].
Qed.

Lemma contains_ci_spec (t s : str) :
  contains_ci lower t s = true <->
  exists pre post, map lower s = (pre ++ map lower t ++ post)%list.
Proof.
  induction s as [| d s IH]; cbn [contains_ci].
  - rewrite orb_false_r, prefix_ci_spec. split.
    + intros [post H]. now exists [], post.
    + intros [pre [post H]]. destruct pre as [| x pre]; [now exists post | ].
      discriminate.
  - rewrite orb_true_iff, prefix_ci_spec, IH. split.
    + intros [[post H] | [pre [post H]]].
      * now exists [], post.
      * exists (lower d :: pre), post. cbn [map List.app]. now rewrite H.
    + intros [pre [post H]]. destruct pre as [| x pre].
      * left. now exists post.
      * right. cbn [map List.app] in H. injection H as _ H. now exists pre, post.
Qed.
End Folding.

End SqlFacts.

(** ** The trivia API *)

Module FlaskFacts.
Import Flask.

Lemma bind_ok {S A B} (m : M S A) (k : A -> M S B) (s s' : S) (a : A) :
  m s = (Ok a, s') -> bind m k s = k a s'.
Proof. intros H. unfold bind. now rewrite H. Qed.

Lemma bind_raise {S A B} (m : M S A) (k : A -> M S B) (s s' : S) (e : exn) :
  m s = (Raise e, s') -> bind m k s = (Raise e, s').
Proof. intros H. unfold bind. now rewrite H. Qed.

Lemma bind_gets {S A B} (f : S -> A) (k : A -> M S B) (s : S) :
  bind (gets f) k s = k (f s) s.
Proof. reflexivity. Qed.

Lemma bind_ret {S A B} (a : A) (k : A -> M S B) (s : S) :
  bind (ret a) k s = k a s.
Proof. reflexivity. Qed.

End FlaskFacts.

Module TriviaFacts.
Import Py Flask Sql Trivia PyFacts SqlFacts FlaskFacts.
Local Open Scope flask_scope.
Local Open Scope list_scope.

Lemma len_zero {A} (l : list A) : (len l =? 0) = true <-> l = [].
Proof.
  unfold len. destruct l as [| x l]; [easy | ].
  split; [ | discriminate]. intros H. apply Z.eqb_eq in H.
  cbn [length] in H. lia.
Qed.

Lemma len_nonzero {A} (l : list A) : l <> [] -> (len l =? 0) = false.
Proof.
  intros H. destruct (len l =? 0) eqn:E; [ | reflexivity].
  apply len_zero in E. contradiction.
Qed.

Lemma paginated_questions_run {B} (request : request B)
    (selection : list Question.t) (d : db) :
  let start := (args_get_page request 1 - 1) * 10 in
  paginated_questions request selection d
  = (Ok (slice (map Question.format selection) start (start + 10)), d).
Proof. reflexivity. Qed.

Lemma page_length {A} (l : list A) (start : Z) :
  (length (slice l start (start + 10)) <= 10)%nat.
Proof.
  pose proof (slice_length l start (start + 10)) as H.
  replace (Z.to_nat (start + 10 - start)) with 10%nat in H by lia.
  apply H. lia.
Qed.

(** C1.  For every request and every sequence of questions, the pagination
    helper returns the slice of the formatted sequence from
    [(p-1)*10] to [(p-1)*10+10] for the requested page [p] (1 by default)
    and leaves the database as it was; the page has at most 10 items, is
    empty when its start index is at or beyond the length of the sequence,
    and for a start index counted from the front it is the next 10 items
    after the first [(p-1)*10]. *)
Theorem paginated_questions_page {B} (request : request B)
    (selection : list Question.t) (d : db) :
  let start := (args_get_page request 1 - 1) * 10 in
  let formatted := map Question.format selection in
  exists page,
    paginated_questions request selection d = (Ok page, d) /\
    page = slice formatted start (start + 10) /\
    (length page <= 10)%nat /\
    (len formatted <= start -> page = []) /\
    (0 <= start ->
     page = firstn 10 (skipn (Z.to_nat start) formatted)).
Proof.
  intros start formatted.
  exists (slice formatted start (start + 10)).
  split; [reflexivity | split; [reflexivity | ]].
  split; [ | split].
  - apply page_length.
  - intros Hlen. now apply slice_beyond.
  - intros H0. rewrite slice_front by lia.
    now replace (Z.to_nat (start + 10 - start)) with 10%nat by lia.
Qed.

(** Page 2 of the twelve sample questions holds the two that follow the
    first ten. *)
Lemma paginated_questions_page_witness :
  exists page,
    paginated_questions (Sample.get_page 2)
      (Trivia.questions Sample.trivia_db) Sample.trivia_db
    = (Ok page, Sample.trivia_db) /\
    page = map Question.format
             [ Sample.row 11 "What is the speed of light?" 1;
               Sample.row 12 "Who painted the Mona Lisa?" 2 ].
Proof.
  destruct (paginated_questions_page (Sample.get_page 2)
              (Trivia.questions Sample.trivia_db) Sample.trivia_db)
    as (page & Hrun & _ & _ & _ & Hfront).
  exists page. split; [exact Hrun | ].
  rewrite Hfront; [reflexivity | vm_compute; discriminate].
Defined.

(** Bounds that count from the end: page -1 of twelve questions is not
    empty, it is the slice [questions[-20:-10]], the first two. *)
Example paginated_questions_negative_page :
  paginated_questions (Sample.get_page (-1))
    (Trivia.questions Sample.trivia_db) Sample.trivia_db
  = (Ok (map Question.format
           [ Sample.row 2 "Which film has the Title role played by a dog?" 1;
             Sample.row 1 "What is the title of the first book?" 1 ]),
     Sample.trivia_db).
Proof. reflexivity. Qed.

(** *** Deleting a question *)

Lemma lookup_absent (question_id : Z) (d : db) :
  absent question_id d ->
  filter (fun q => Question.id q =? question_id) (questions d) = [].
Proof.
  intros Habs. apply filter_none. intros q Hq.
  apply Z.eqb_neq. now apply Habs.
Qed.

Lemma delete_question_try_absent {B} (request : request B)
    (question_id : Z) (d : db) :
  absent question_id d ->
  delete_question_try request question_id d = (Raise (HTTPException 404), d).
Proof.
  intros Habs. unfold delete_question_try. rewrite bind_gets.
  rewrite (lookup_absent _ _ Habs). reflexivity.
Qed.

Lemma delete_question_absent {B} (request : request B)
    (question_id : Z) (d : db) :
  absent question_id d ->
  delete_question request question_id d = (Raise (HTTPException 422), d).
Proof.
  intros Habs. unfold delete_question, try_except.
  now rewrite (delete_question_try_absent request question_id d Habs).
Qed.

(** C2 (as the code has it).  For every question id absent from the store,
    the [try] block of [delete_question] signals NotFound with [abort(404)],
    the bare [except] around it catches that and aborts with 422, and the
    response is the 422 "unprocessable" envelope; the store is unchanged. *)
Theorem delete_question_absent_caught {B} (request : request B)
    (question_id : Z) (d : db) :
  absent question_id d ->
  delete_question_try request question_id d = (Raise (HTTPException 404), d) /\
  delete_question request question_id d = (Raise (HTTPException 422), d) /\
  status (fst (serve (delete_question request question_id) d)) = 422.
Proof.
  intros Habs.
  pose proof (delete_question_try_absent request question_id d Habs) as Htry.
  pose proof (delete_question_absent request question_id d Habs) as Hview.
  repeat split; [exact Htry | exact Hview | ].
  unfold serve, full_dispatch_request. rewrite Hview. reflexivity.
Qed.

Lemma delete_question_absent_caught_witness :
  status (fst (serve (delete_question Sample.bare 1000) Sample.trivia_db)) = 422.
Proof.
  apply (delete_question_absent_caught Sample.bare 1000 Sample.trivia_db).
  intros q Hq. cbn in Hq.
  repeat (destruct Hq as [<- | Hq]; [discriminate | ]). contradiction.
Defined.

(** C2, refuted as stated: question 1000 is not in the sample store, and
    [DELETE /questions/1000] is answered 422, not 404. *)
Lemma delete_question_absent_not_404 :
  absent 1000 Sample.trivia_db /\
  fst (serve (delete_question Sample.bare 1000) Sample.trivia_db)
  = error_envelope 422 "unprocessable" /\
  status (fst (serve (delete_question Sample.bare 1000) Sample.trivia_db))
  <> 404.
Proof.
  split; [ | split; [reflexivity | discriminate]].
  intros q Hq. cbn in Hq.
  repeat (destruct Hq as [<- | Hq]; [discriminate | ]). contradiction.
Qed.

(** C3.  [DELETE /questions/{id}] for an id absent from the store is
    answered with the 422 "unprocessable" envelope; for an id present in a
    store whose ids are unique it is answered 200 with [deleted] equal to
    the id, and the question is absent from the store afterwards (the other
    questions stay). *)
Theorem delete_question_response {B} (request : request B)
    (question_id : Z) (d : db) :
  (absent question_id d ->
   serve (delete_question request question_id) d
   = (error_envelope 422 "unprocessable", d)) /\
  (NoDup (map Question.id (questions d)) ->
   (exists q, In q (questions d) /\ Question.id q = question_id) ->
   exists d',
     serve (delete_question request question_id) d
     = (jsonify [ (KStr "success", JBool true);
                  (KStr "deleted", JInt question_id) ], d') /\
     absent question_id d' /\
     (forall q, In q (questions d') <->
                In q (questions d) /\ Question.id q <> question_id) /\
     categories d' = categories d).
Proof.
  split.
  - intros Habs.
    unfold serve, full_dispatch_request.
    rewrite (delete_question_absent request question_id d Habs).
    reflexivity.
  - intros Hnodup (q & Hin & <-).
    exists {| questions :=
                filter (fun r => negb (Question.id r =? Question.id q))
                       (questions d);
              categories := categories d |}.
    split; [ | split; [ | split; [ | reflexivity]]].
    + unfold serve, full_dispatch_request, delete_question, try_except,
        delete_question_try, bind, gets.
      rewrite (filter_unique Question.id (questions d) q Hnodup Hin).
      reflexivity.
    + intros r Hr. cbn [questions] in Hr.
      apply filter_In in Hr as [_ Hr].
      apply negb_true_iff in Hr. now apply Z.eqb_neq.
    + intros r. cbn [questions]. rewrite filter_In, negb_true_iff, Z.eqb_neq.
      reflexivity.
Qed.

Lemma delete_question_response_witness :
  serve (delete_question Sample.bare 1000) Sample.trivia_db
  = (error_envelope 422 "unprocessable", Sample.trivia_db) /\
  exists d',
    serve (delete_question Sample.bare 12) Sample.trivia_db
    = (jsonify [ (KStr "success", JBool true); (KStr "deleted", JInt 12) ], d') /\
    absent 12 d'.
Proof.
  split.
  - apply (delete_question_response Sample.bare 1000 Sample.trivia_db).
    intros q Hq. cbn in Hq.
    repeat (destruct Hq as [<- | Hq]; [discriminate | ]). contradiction.
  - destruct (proj2 (delete_question_response Sample.bare 12 Sample.trivia_db))
      as (d' & Hserve & Habs & _).
    + cbn. repeat constructor; cbn; intuition discriminate.
    + exists (Sample.row 12 "Who painted the Mona Lisa?" 2).
      split; [cbn; tauto | reflexivity].
    + exists d'. split; assumption.
Defined.

(** *** The quiz *)

Lemma not_in_previous (prev : list Z) (q : Question.t) :
  In (Question.id q) prev -> not_in prev q = false.
Proof.
  intros Hin. unfold not_in. apply negb_false_iff.
  apply existsb_exists. exists (Question.id q).
  split; [exact Hin | apply Z.eqb_refl].
Qed.

(** C4.  For every [POST /quizzes] whose [previous_questions] holds every
    question of the selected category (0 selecting every category), or
    whose category selects no question, whatever number the random
    generator draws, [random.choice] raises [IndexError] on the empty
    candidate list and the response is the 500 "internal server error"
    envelope, not the 404 one; the store is unchanged. *)
Theorem create_quiz_exhausted (r : nat) (request : request quiz_form)
    (prev : list Z) (category_id : option Z) (d : db) :
  get_json request = Some {| previous_questions := Some prev;
                             quiz_category := Some category_id |} ->
  (forall q, In q (questions d) ->
             in_quiz_category category_id q = true ->
             In (Question.id q) prev) \/
  (forall q, In q (questions d) ->
             in_quiz_category category_id q = false) ->
  create_quiz r request d = (Raise IndexError, d) /\
  serve (create_quiz r request) d
  = (error_envelope 500 "internal server error", d).
Proof.
  intros Hbody Hcover.
  assert (Hnone : forall q, In q (questions d) ->
            in_quiz_category category_id q && not_in prev q = false).
  { intros q Hq. destruct Hcover as [Hall | Hno].
    - destruct (in_quiz_category category_id q) eqn:E; [ | reflexivity].
      cbn. apply not_in_previous. now apply Hall.
    - now rewrite (Hno q Hq). }
  assert (Hview : create_quiz r request d = (Raise IndexError, d)).
  { unfold create_quiz. rewrite Hbody.
    unfold bind, attr, ret, gets. cbn [previous_questions quiz_category].
    match goal with
    | |- context [choice r ?c] => assert (Hempty : c = []); [ | rewrite Hempty ]
    end.
    - destruct (col_eqb category_id (Some 0)) eqn:E;
        apply filter_none; intros q Hq;
        specialize (Hnone q Hq); unfold in_quiz_category in Hnone;
        rewrite E in Hnone; exact Hnone.
    - reflexivity. }
  split; [exact Hview | ].
  unfold serve, full_dispatch_request. rewrite Hview. reflexivity.
Qed.

(** Category 2 of the sample store has question 12 alone, and category 7
    has none. *)
Lemma create_quiz_exhausted_witness :
  serve (create_quiz 5 (Sample.quiz [12] 2)) Sample.trivia_db
  = (error_envelope 500 "internal server error", Sample.trivia_db) /\
  serve (create_quiz 5 (Sample.quiz [11; 13; 15] 7)) Sample.trivia_db
  = (error_envelope 500 "internal server error", Sample.trivia_db).
Proof.
  split.
  - apply (create_quiz_exhausted 5 (Sample.quiz [12] 2) [12] (Some 2)
             Sample.trivia_db); [reflexivity | ].
    left. intros q Hq. cbn in Hq.
    repeat (destruct Hq as [<- | Hq];
            [vm_compute; intros; try discriminate; tauto | ]).
    contradiction.
  - apply (create_quiz_exhausted 5 (Sample.quiz [11; 13; 15] 7) [11; 13; 15]
             (Some 7) Sample.trivia_db); [reflexivity | ].
    right. intros q Hq. cbn in Hq.
    repeat (destruct Hq as [<- | Hq]; [reflexivity | ]).
    contradiction.
Defined.

(** With a question left to ask, the quiz answers 200 with it. *)
Example create_quiz_next :
  fst (serve (create_quiz 5 (Sample.quiz [] 2)) Sample.trivia_db)
  = jsonify [ (KStr "success", JBool true);
              (KStr "question",
               Question.format (Sample.row 12 "Who painted the Mona Lisa?" 2)) ].
Proof. reflexivity. Qed.

(** *** Searching *)

Lemma slice_nil {A} (start stop : Z) : slice (@nil A) start stop = [].
Proof. unfold slice. rewrite skipn_nil. apply firstn_nil. Qed.

Lemma truthy_nonempty (term : str) :
  term <> "" -> truthy (Some term) = true.
Proof.
  intros H. destruct term; [contradiction | reflexivity].
Qed.

Lemma search_pattern_chars (term : str) :
  u "%" ++ term ++ u "%" = percent :: term ++ [percent].
Proof. reflexivity. Qed.

(** The pattern [%term%] always parses, so the search never fails on it. *)
Lemma search_pattern_parses (term : str) :
  exists p, like_pattern (u "%" ++ term ++ u "%") = Some p.
Proof.
  pose proof (like_pattern_percent (S (length term)) (percent :: term)) as H.
  rewrite search_pattern_chars.
  destruct (like_pattern (percent :: term ++ [percent])) as [p | ] eqn:E.
  - now exists p.
  - exfalso. apply H; [cbn [length]; lia | exact E].
Qed.

Section Folding.
(** The case folding of the database: what follows holds whatever it is. *)
Variable lower : N -> N.

Lemma search_query_run (term : str) (d : db) :
  search_query lower (u "%" ++ term ++ u "%") d
  = (Ok (filter (search_matches lower term)
                (order_by Question.id (questions d))), d).
Proof.
  unfold search_query, search_matches.
  destruct (search_pattern_parses term) as [p Hp]. rewrite Hp.
  reflexivity.
Qed.

(** For a plain term the search selects the questions that contain it. *)
Lemma search_matches_plain (term : str) (q : Question.t) :
  plain term = true ->
  search_matches lower term q = question_contains lower term q.
Proof.
  intros Hplain. unfold search_matches, question_contains, ilike.
  rewrite search_pattern_chars.
  change (like_pattern (percent :: term ++ [percent]))
    with (option_map (cons Any) (like_pattern (term ++ [percent]))).
  rewrite (like_pattern_plain term [percent] [Any] Hplain eq_refl).
  cbn [option_map]. destruct (Question.question q) as [text | ];
    [apply like_match_contains | reflexivity].
Qed.

(** What the search branch of [create_questions] answers. *)
Lemma create_questions_search (request : request question_form)
    (body : question_form) (term : str) (d : db) :
  get_json request = Some body ->
  form_searchTerm body = Some term ->
  term <> "" ->
  let start := (args_get_page request 1 - 1) * 10 in
  let found := filter (search_matches lower term)
                      (order_by Question.id (questions d)) in
  serve (create_questions lower request) d
  = (jsonify [ (KStr "success", JBool true);
               (KStr "questions",
                JList (slice (map Question.format found) start (start + 10)));
               (KStr "total_questions", JInt (len found));
               (KStr "current_category", JStr "All") ], d).
Proof.
  intros Hbody Hterm Hne start found.
  unfold serve, full_dispatch_request, create_questions.
  rewrite Hbody. unfold attr. rewrite bind_ret.
  unfold try_except, create_questions_try.
  rewrite Hterm, (truthy_nonempty term Hne).
  rewrite (bind_ok _ _ d d _ (search_query_run term d)).
  rewrite (bind_ok _ _ d d _ (paginated_questions_run request _ d)).
  rewrite (bind_ok _ _ d d _ (search_query_run term d)).
  reflexivity.
Qed.

(** C5 (as the code has it).  For every non-empty search term without a
    [LIKE] metacharacter ([%], [_], backslash), [POST /questions] with that
    [searchTerm] answers 200 with [total_questions] equal to the number of
    all the questions of the store whose text contains the term, letter
    case apart (whatever letters the case folding of the database knows),
    while [questions] is one page of them, of at most 10. *)
Theorem search_total_questions (request : request question_form)
    (body : question_form) (term : str) (d : db) :
  get_json request = Some body ->
  form_searchTerm body = Some term ->
  term <> "" ->
  plain term = true ->
  let start := (args_get_page request 1 - 1) * 10 in
  let found := filter (question_contains lower term)
                      (order_by Question.id (questions d)) in
  let page := slice (map Question.format found) start (start + 10) in
  serve (create_questions lower request) d
  = (jsonify [ (KStr "success", JBool true);
               (KStr "questions", JList page);
               (KStr "total_questions",
                JInt (len (filter (question_contains lower term)
                                  (questions d))));
               (KStr "current_category", JStr "All") ], d) /\
  (length page <= 10)%nat.
Proof.
  intros Hbody Hterm Hne Hplain start found page.
  split; [ | apply page_length].
  rewrite (create_questions_search request body term d Hbody Hterm Hne).
  assert (Hfound : filter (search_matches lower term)
                     (order_by Question.id (questions d)) = found).
  { apply filter_ext. intros q. now apply search_matches_plain. }
  rewrite Hfound.
  assert (Hlen : len found
                 = len (filter (question_contains lower term) (questions d)))
    by (unfold len, found; now rewrite filter_order_by).
  rewrite Hlen. reflexivity.
Qed.

(** C6 (as the code has it).  For every non-empty search term that the
    search matches no question with, [POST /questions] with that
    [searchTerm] answers 200 with [questions] the empty list and
    [total_questions] 0, where the unfiltered list answers 404; the store is
    unchanged. *)
Theorem search_no_match (request : request question_form)
    (body : question_form) (term : str) (d : db) :
  get_json request = Some body ->
  form_searchTerm body = Some term ->
  term <> "" ->
  (forall q, In q (questions d) -> search_matches lower term q = false) ->
  serve (create_questions lower request) d
  = (jsonify [ (KStr "success", JBool true);
               (KStr "questions", JList []);
               (KStr "total_questions", JInt 0);
               (KStr "current_category", JStr "All") ], d).
Proof.
  intros Hbody Hterm Hne Hnone.
  rewrite (create_questions_search request body term d Hbody Hterm Hne).
  rewrite (filter_none (search_matches lower term)
             (order_by Question.id (questions d))).
  - cbn [map]. now rewrite slice_nil.
  - intros q Hq. apply Hnone. now apply in_order_by in Hq.
Qed.
End Folding.

(** Three sample questions contain "title", in one letter case or
    another. *)
Lemma search_total_questions_witness :
  fst (serve (create_questions Sample.ascii_lower (Sample.search "title"))
             Sample.trivia_db)
  = jsonify [ (KStr "success", JBool true);
              (KStr "questions",
               JList (map Question.format
                 [ Sample.row 1 "What is the title of the first book?" 1;
                   Sample.row 2 "Which film has the Title role played by a dog?" 1;
                   Sample.row 9 "What is a TITLE deed?" 1 ]));
              (KStr "total_questions", JInt 3);
              (KStr "current_category", JStr "All") ].
Proof.
  destruct (search_total_questions Sample.ascii_lower (Sample.search "title")
              {| form_question := None; form_answer := None;
                 form_difficulty := None; form_category := None;
                 form_searchTerm := Some (u "title") |}
              "title" Sample.trivia_db eq_refl eq_refl)
    as [Hserve _]; [discriminate | reflexivity | ].
  rewrite Hserve. reflexivity.
Defined.

(** C5, refuted as stated, whatever the case folding.  An empty
    [searchTerm] is not searched for: the view inserts a question and
    answers without [total_questions], though every text contains the empty
    term.  And the term [_] is a wildcard: [total_questions] is 12 in a
    store where one question contains an underscore. *)
Lemma search_total_questions_not_substring_count :
  (forall lower, exists d',
     serve (create_questions lower Sample.blank_search) Sample.trivia_db
     = (jsonify [ (KStr "success", JBool true) ], d') /\
     length (questions d') = 13%nat) /\
  (forall lower,
     len (filter (question_contains lower "") (questions Sample.trivia_db))
     = 12) /\
  (forall lower,
     fst (serve (create_questions lower (Sample.search "_")) Sample.trivia_db)
     = jsonify [ (KStr "success", JBool true);
                 (KStr "questions",
                  JList (firstn 10 (map Question.format
                           (order_by Question.id
                                     (questions Sample.trivia_db)))));
                 (KStr "total_questions", JInt 12);
                 (KStr "current_category", JStr "All") ]) /\
  len (filter (question_contains Sample.ascii_lower "_")
              (questions Sample.trivia_db)) = 1.
Proof.
  split; [ | split; [ | split]].
  - intros lower. eexists. split; reflexivity.
  - intros lower. reflexivity.
  - intros lower. reflexivity.
  - reflexivity.
Qed.

(** The letters the search folds are those the database folds: a database
    that folds the accented capitals finds "CAFE?" under "cafe", accents
    on both, and one that folds the ASCII letters only does not. *)
Example search_accented :
  field (fst (serve (create_questions Sample.latin_lower Sample.search_cafe)
                    Sample.cafe_db)) "total_questions" = Some (JInt 1) /\
  field (fst (serve (create_questions Sample.ascii_lower Sample.search_cafe)
                    Sample.cafe_db)) "total_questions" = Some (JInt 0).
Proof. split; reflexivity. Qed.

Lemma search_no_match_witness :
  serve (create_questions Sample.ascii_lower (Sample.search "xxxx"))
        Sample.trivia_db
  = (jsonify [ (KStr "success", JBool true);
               (KStr "questions", JList []);
               (KStr "total_questions", JInt 0);
               (KStr "current_category", JStr "All") ], Sample.trivia_db).
Proof.
  apply (search_no_match Sample.ascii_lower (Sample.search "xxxx")
           {| form_question := None; form_answer := None;
              form_difficulty := None; form_category := None;
              form_searchTerm := Some (u "xxxx") |} "xxxx" Sample.trivia_db);
    [reflexivity | reflexivity | discriminate | ].
  intros q Hq. cbn in Hq.
  repeat (destruct Hq as [<- | Hq]; [reflexivity | ]). contradiction.
Defined.

(** C6, refuted as stated, whatever the case folding: in a store without
    questions none matches the empty [searchTerm], and the answer is a bare
    success flag after a question was inserted, without [questions] or
    [total_questions]. *)
Lemma search_no_match_empty_term :
  (forall lower q, In q (questions Sample.no_questions_db) ->
                   search_matches lower "" q = false) /\
  (forall lower, exists d',
     serve (create_questions lower Sample.blank_search) Sample.no_questions_db
     = (jsonify [ (KStr "success", JBool true) ], d') /\
     length (questions d') = 1%nat).
Proof.
  split; [intros lower q [] | ].
  intros lower. eexists. split; reflexivity.
Qed.

(** *** Listing questions *)

Lemma get_categories_run (d : db) :
  exists categories, get_categories d = (Ok categories, d).
Proof. eexists. reflexivity. Qed.

(** C7.  For every requested page that is not empty, [GET /questions]
    answers 200 with that page, of at most 10 questions, and with
    [total_questions] equal to the number of questions in the store; the
    store is unchanged. *)
Theorem retrieve_questions_total {B} (request : request B) (d : db) :
  let start := (args_get_page request 1 - 1) * 10 in
  let page := slice (map Question.format
                       (order_by Question.id (questions d)))
                    start (start + 10) in
  page <> [] ->
  exists categories,
    get_categories d = (Ok categories, d) /\
    serve (retrieve_questions request) d
    = (jsonify [ (KStr "success", JBool true);
                 (KStr "questions", JList page);
                 (KStr "total_questions", JInt (len (questions d)));
                 (KStr "categories", JDict categories);
                 (KStr "current_category", JStr "All") ], d) /\
    (length page <= 10)%nat.
Proof.
  intros start page Hpage.
  destruct (get_categories_run d) as [categories Hcat].
  exists categories. split; [exact Hcat | split; [ | apply page_length]].
  unfold serve, full_dispatch_request, retrieve_questions.
  rewrite bind_gets.
  rewrite (bind_ok _ _ d d _ (paginated_questions_run request _ d)).
  fold start. fold page. rewrite (len_nonzero page Hpage).
  rewrite bind_gets.
  rewrite (bind_ok _ _ d d _ Hcat).
  reflexivity.
Qed.

(** Page 2 of the twelve sample questions: two questions, total 12. *)
Lemma retrieve_questions_total_witness :
  fst (serve (retrieve_questions (Sample.get_page 2)) Sample.trivia_db)
  = jsonify [ (KStr "success", JBool true);
              (KStr "questions",
               JList (map Question.format
                 [ Sample.row 11 "What is the speed of light?" 1;
                   Sample.row 12 "Who painted the Mona Lisa?" 2 ]));
              (KStr "total_questions", JInt 12);
              (KStr "categories",
               JDict [ (KInt 1, JStr "Science"); (KInt 2, JStr "Art") ]);
              (KStr "current_category", JStr "All") ].
Proof.
  destruct (retrieve_questions_total (Sample.get_page 2) Sample.trivia_db)
    as (categories & Hcat & Hserve & _); [discriminate | ].
  rewrite Hserve. injection Hcat as <-. reflexivity.
Defined.

(** C8.  For every page whose start index is at or beyond the number of
    questions, [GET /questions?page=N] is answered with the 404 "resource not
    found" envelope: the pagination helper returns the empty page and the
    view aborts on it; the store is unchanged. *)
Theorem retrieve_questions_beyond {B} (request : request B) (d : db) :
  len (questions d) <= (args_get_page request 1 - 1) * 10 ->
  paginated_questions request (order_by Question.id (questions d)) d
  = (Ok [], d) /\
  retrieve_questions request d = (Raise (HTTPException 404), d) /\
  serve (retrieve_questions request) d
  = (error_envelope 404 "resource not found", d).
Proof.
  intros Hbeyond.
  assert (Hpage : paginated_questions request
                    (order_by Question.id (questions d)) d = (Ok [], d)).
  { rewrite paginated_questions_run. rewrite slice_beyond; [reflexivity | ].
    rewrite length_map, length_order_by. exact Hbeyond. }
  assert (Hview : retrieve_questions request d
                  = (Raise (HTTPException 404), d)).
  { unfold retrieve_questions.
    rewrite bind_gets.
    rewrite (bind_ok _ _ d d _ Hpage). reflexivity. }
  repeat split; [exact Hpage | exact Hview | ].
  unfold serve, full_dispatch_request. rewrite Hview. reflexivity.
Qed.

Lemma retrieve_questions_beyond_witness :
  serve (retrieve_questions (Sample.get_page 1000)) Sample.trivia_db
  = (error_envelope 404 "resource not found", Sample.trivia_db).
Proof.
  apply (retrieve_questions_beyond (Sample.get_page 1000) Sample.trivia_db).
  vm_compute. discriminate.
Defined.

(** *** Listing the questions of a category *)

Lemma get_some {A} (key : A -> Z) (k : Z) (l : list A) :
  (exists x, In x l /\ key x = k) ->
  exists y, get key k l = Some y /\ key y = k.
Proof.
  intros (x & Hin & Hkey). unfold get.
  destruct (find (fun y => key y =? k) l) as [y | ] eqn:E.
  - exists y. split; [reflexivity | ].
    apply find_some in E as [_ E]. now apply Z.eqb_eq.
  - exfalso. apply (find_none _ _ E) in Hin.
    apply Z.eqb_neq in Hin. contradiction.
Qed.

(** A page of a category's questions is made of questions of the store in
    that category. *)
Lemma category_page_nonempty (category_id : Z) (d : db) (start : Z) :
  slice (map Question.format
           (filter (fun q => col_eqb (Question.category q) (Some category_id))
                   (questions d)))
        start (start + 10) <> [] ->
  exists q, In q (questions d) /\ Question.category q = Some category_id.
Proof.
  intros Hpage.
  destruct (filter (fun q => col_eqb (Question.category q) (Some category_id))
                   (questions d)) as [| q rest] eqn:E.
  - exfalso. apply Hpage. cbn [map]. apply slice_nil.
  - assert (Hq : In q (q :: rest)) by now left.
    rewrite <- E in Hq. apply filter_In in Hq as [Hin Hcat].
    exists q. split; [exact Hin | ].
    destruct (Question.category q) as [c | ]; [ | discriminate].
    cbn in Hcat. apply Z.eqb_eq in Hcat. now subst.
Qed.

(** C10 (as the code has it).  For every category id that has a row in
    the category table and whose page of questions is not empty,
    [GET /categories/{id}/questions] answers 200 with that page and with
    [total_questions] equal to the number of questions on the page, at most
    10, whatever the number of questions in the category; the store is
    unchanged. *)
Theorem retrieve_questions_by_category_total {B} (request : request B)
    (category_id : Z) (d : db) :
  let start := (args_get_page request 1 - 1) * 10 in
  let page :=
    slice (map Question.format
             (filter (fun q => col_eqb (Question.category q) (Some category_id))
                     (questions d)))
          start (start + 10) in
  category_known category_id d ->
  page <> [] ->
  exists c,
    get Category.id category_id (categories d) = Some c /\
    Category.id c = category_id /\
    serve (retrieve_questions_by_category request category_id) d
    = (jsonify [ (KStr "success", JBool true);
                 (KStr "questions", JList page);
                 (KStr "total_questions", JInt (len page));
                 (KStr "current_category", JStr (Category.type c)) ], d) /\
    (length page <= 10)%nat.
Proof.
  intros start page Hknown Hpage.
  destruct (get_some Category.id category_id (categories d) Hknown)
    as (c & Hget & Hid).
  exists c.
  split; [exact Hget | split; [exact Hid | split; [ | apply page_length]]].
  unfold serve, full_dispatch_request, retrieve_questions_by_category.
  rewrite bind_gets.
  rewrite (bind_ok _ _ d d _ (paginated_questions_run request _ d)).
  fold start. fold page. rewrite (len_nonzero page Hpage).
  rewrite bind_gets.
  rewrite Hget. reflexivity.
Qed.

(** Category 1 of the sample store has eleven questions; its first page has
    ten, and [total_questions] is 10. *)
Lemma retrieve_questions_by_category_total_witness :
  len (filter (fun q => col_eqb (Question.category q) (Some 1))
              (questions Sample.trivia_db)) = 11 /\
  field (fst (serve (retrieve_questions_by_category Sample.bare 1)
                    Sample.trivia_db)) "total_questions"
  = Some (JInt 10).
Proof.
  split; [reflexivity | ].
  destruct (retrieve_questions_by_category_total Sample.bare 1 Sample.trivia_db)
    as (c & _ & _ & Hserve & _).
  - exists {| Category.id := 1; Category.type := "Science" |}.
    split; [cbn; tauto | reflexivity].
  - discriminate.
  - rewrite Hserve. reflexivity.
Defined.

(** C10, refuted as stated: in a store whose category table lacks row 2,
    the page of the questions of category 2 is not empty, and the answer is
    the 500 envelope, which has no [total_questions]. *)
Lemma retrieve_questions_by_category_no_row :
  let d := {| questions := questions Sample.trivia_db; categories := [] |} in
  slice (map Question.format
           (filter (fun q => col_eqb (Question.category q) (Some 2))
                   (questions d))) 0 10
  = [ Question.format (Sample.row 12 "Who painted the Mona Lisa?" 2) ] /\
  serve (retrieve_questions_by_category Sample.bare 2) d
  = (error_envelope 500 "internal server error", d) /\
  field (fst (serve (retrieve_questions_by_category Sample.bare 2) d))
        "total_questions" = None.
Proof. repeat split. Qed.

(** *** The foreign key is kept by the views that write *)

Lemma Question_insert_integrity (question answer : option str)
    (difficulty category : option Z) (d d' : db) (r : result unit) :
  referential_integrity d ->
  Question_insert question answer difficulty category d = (r, d') ->
  referential_integrity d'.
Proof.
  intros Hfk Hrun. unfold Question_insert in Hrun. rewrite bind_gets in Hrun.
  destruct category as [c | ].
  - destruct (existsb (fun k => Category.id k =? c) (categories d)) eqn:E.
    + injection Hrun as _ <-. intros q c' Hq Hc. cbn [questions categories] in *.
      apply in_app_iff in Hq as [Hq | [<- | []]]; [now apply (Hfk q) | ].
      cbn in Hc. injection Hc as <-.
      apply existsb_exists in E as (k & Hk & Hid).
      exists k. split; [exact Hk | now apply Z.eqb_eq].
    + injection Hrun as _ <-. exact Hfk.
  - injection Hrun as _ <-. intros q c' Hq Hc. cbn [questions categories] in *.
    apply in_app_iff in Hq as [Hq | [<- | []]]; [now apply (Hfk q) | ].
    discriminate.
Qed.

Lemma create_questions_integrity (lower : N -> N)
    (request : request question_form) (d : db) :
  referential_integrity d ->
  referential_integrity (snd (serve (create_questions lower request) d)).
Proof.
  intros Hfk. unfold serve, full_dispatch_request, create_questions, attr.
  destruct (get_json request) as [body | ]; [ | exact Hfk].
  rewrite (bind_ok _ _ d d body eq_refl).
  unfold try_except, create_questions_try.
  destruct (truthy (form_searchTerm body)).
  - unfold search_query.
    destruct (like_pattern _); [exact Hfk | exact Hfk].
  - unfold bind at 1.
    destruct (Question_insert _ _ _ _ d) as [[[] | e] d'] eqn:E;
      apply Question_insert_integrity in E; assumption.
Qed.

Lemma delete_question_integrity {B} (request : request B)
    (question_id : Z) (d : db) :
  referential_integrity d ->
  referential_integrity (snd (serve (delete_question request question_id) d)).
Proof.
  intros Hfk.
  unfold serve, full_dispatch_request, delete_question, try_except,
    delete_question_try.
  rewrite bind_gets.
  destruct (filter (fun q => Question.id q =? question_id) (questions d))
    as [| q [| q' rest]]; [exact Hfk | | exact Hfk].
  intros r c Hr Hc. cbn in Hr. apply filter_In in Hr as [Hr _].
  now apply (Hfk r).
Qed.

End TriviaFacts.

(** ** The coffee-shop API *)

Module CoffeeShopFacts.
Import Py Flask Sql CoffeeShop SqlFacts FlaskFacts.
Local Open Scope flask_scope.
Local Open Scope list_scope.

Section Api.
Variable json_dumps : json -> string.
Variables long short : Drink.t -> json.

Lemma lookup_missing (drink_id : Z) (d : db) :
  (forall x, In x (drinks d) -> Drink.id x <> drink_id) ->
  lookup drink_id d = (Ok None, d).
Proof.
  intros Hmissing. unfold lookup. rewrite bind_gets.
  rewrite filter_none; [reflexivity | ].
  intros x Hx. apply Z.eqb_neq. now apply Hmissing.
Qed.

(** C9.  For every drink id that no row carries, [PATCH /drinks/{id}] and
    [DELETE /drinks/{id}], once the token carries the permission, are
    answered with the 404 "resource not found" envelope, and neither the
    drinks nor the journal of committed writes change: no update or delete
    was attempted. *)
Theorem missing_drink_not_found (drink_id : Z) (request : request) (d : db) :
  (forall x, In x (drinks d) -> Drink.id x <> drink_id) ->
  ((exists payload, auth request "patch:drinks" = inl payload) ->
   serve (update_drinks json_dumps long drink_id request) d
   = (error_envelope 404 "resource not found", d)) /\
  ((exists payload, auth request "delete:drinks" = inl payload) ->
   serve (delete_drinks drink_id request) d
   = (error_envelope 404 "resource not found", d)).
Proof.
  intros Hmissing. split; intros [payload Hauth].
  - unfold serve, full_dispatch_request, update_drinks, requires_auth.
    rewrite Hauth.
    rewrite (bind_ok _ _ d d _ (lookup_missing drink_id d Hmissing)).
    reflexivity.
  - unfold serve, full_dispatch_request, delete_drinks, requires_auth.
    rewrite Hauth.
    rewrite (bind_ok _ _ d d _ (lookup_missing drink_id d Hmissing)).
    reflexivity.
Qed.

End Api.

Lemma missing_drink_not_found_witness :
  serve (update_drinks (fun _ => "null") (fun _ => JNone) 7 Sample.barista)
        Sample.coffee_db
  = (error_envelope 404 "resource not found", Sample.coffee_db) /\
  serve (delete_drinks 7 Sample.barista) Sample.coffee_db
  = (error_envelope 404 "resource not found", Sample.coffee_db).
Proof.
  assert (Hmissing : forall x, In x (drinks Sample.coffee_db) ->
                               Drink.id x <> 7).
  { intros x [<- | []]. discriminate. }
  destruct (missing_drink_not_found (fun _ => "null") (fun _ => JNone) 7
              Sample.barista Sample.coffee_db Hmissing) as [Hpatch Hdelete].
  split; [apply Hpatch | apply Hdelete]; exists JNone; reflexivity.
Defined.

(** A drink that is there is deleted, and the journal says so. *)
Example delete_drinks_present :
  serve (delete_drinks 1 Sample.barista) Sample.coffee_db
  = (jsonify [ (KStr "success", JBool true); (KStr "delete", JInt 1) ],
     {| drinks := []; journal := [Deleted 1] |}).
Proof. reflexivity. Qed.

End CoffeeShopFacts.

(** ** Ordering, slices and pages *)

Module OrderFacts.
Import Py Flask Sql PyFacts SqlFacts.
Local Open Scope list_scope.

Lemma in_firstn {A} (n : nat) (l : list A) (x : A) :
  In x (firstn n l) -> In x l.
Proof.
  revert l. induction n as [| n IH]; intros [| y l] Hx; try contradiction.
  cbn [firstn] in Hx. destruct Hx as [-> | Hx]; [now left | right; auto].
Qed.

Lemma in_skipn {A} (n : nat) (l : list A) (x : A) :
  In x (skipn n l) -> In x l.
Proof.
  revert l. induction n as [| n IH]; intros l Hx; [exact Hx | ].
  destruct l as [| y l]; [contradiction | ]. right. now apply IH.
Qed.

Section OrderBy.
Context {A : Type} (key : A -> Z).

Lemma insert_by_perm (x : A) (l : list A) :
  Permutation (insert_by key x l) (x :: l).
Proof.
  induction l as [| y l IH]; [apply Permutation_refl | ].
  cbn [insert_by]. destruct (key x <? key y); [apply Permutation_refl | ].
  apply Permutation_trans with (y :: x :: l);
    [now apply perm_skip | apply perm_swap].
Qed.

(** Ordering rearranges the rows and does nothing else. *)
Lemma order_by_perm (l : list A) : Permutation (order_by key l) l.
Proof.
  induction l as [| x l IH]; [apply Permutation_refl | ].
  unfold order_by in *. cbn [fold_right].
  apply Permutation_trans with (x :: fold_right (insert_by key) [] l);
    [apply insert_by_perm | now apply perm_skip].
Qed.

Lemma insert_by_ascending (x : A) (l : list A) :
  ascending key l -> ascending key (insert_by key x l).
Proof.
  unfold ascending. induction l as [| y l IH]; intros Hl.
  - cbn. constructor; constructor.
  - apply StronglySorted_inv in Hl as [Hl Hy].
    cbn [insert_by]. destruct (key x <? key y) eqn:E.
    + apply Z.ltb_lt in E. constructor; [now constructor | ].
      constructor; [lia | ].
      apply Forall_impl with (P := fun b => key y <= key b); [ | exact Hy].
      intros b Hb. lia.
    + apply Z.ltb_ge in E. constructor; [now apply IH | ].
      apply Forall_forall. intros b Hb.
      apply in_insert_by in Hb as [-> | Hb]; [exact E | ].
      now apply (proj1 (Forall_forall _ _) Hy).
Qed.

Lemma order_by_ascending (l : list A) : ascending key (order_by key l).
Proof.
  induction l as [| x l IH]; [constructor | ].
  unfold order_by in *. cbn [fold_right]. now apply insert_by_ascending.
Qed.

Lemma ascending_filter (f : A -> bool) (l : list A) :
  ascending key l -> ascending key (filter f l).
Proof.
  unfold ascending. induction 1 as [| x l Hl IH Hx]; [constructor | ].
  cbn [filter]. destruct (f x); [ | exact IH].
  constructor; [exact IH | ].
  apply Forall_forall. intros b Hb. apply filter_In in Hb as [Hb _].
  now apply (proj1 (Forall_forall _ _) Hx).
Qed.

Lemma ascending_skipn (n : nat) (l : list A) :
  ascending key l -> ascending key (skipn n l).
Proof.
  unfold ascending. revert l. induction n as [| n IH]; intros l Hl;
    [exact Hl | ].
  destruct l as [| x l]; [constructor | ].
  apply StronglySorted_inv in Hl as [Hl _]. now apply IH.
Qed.

Lemma ascending_firstn (n : nat) (l : list A) :
  ascending key l -> ascending key (firstn n l).
Proof.
  unfold ascending. revert l. induction n as [| n IH]; intros l Hl;
    [constructor | ].
  destruct l as [| x l]; [constructor | ].
  apply StronglySorted_inv in Hl as [Hl Hx].
  cbn [firstn]. constructor; [now apply IH | ].
  apply Forall_forall. intros b Hb. apply in_firstn in Hb.
  now apply (proj1 (Forall_forall _ _) Hx).
Qed.

Lemma ascending_slice (start stop : Z) (l : list A) :
  ascending key l -> ascending key (slice l start stop).
Proof.
  intros Hl. unfold slice. now apply ascending_firstn, ascending_skipn.
Qed.
End OrderBy.

Lemma slice_map {A B} (f : A -> B) (l : list A) (start stop : Z) :
  slice (map f l) start stop = map f (slice l start stop).
Proof.
  unfold slice. now rewrite length_map, skipn_map, firstn_map.
Qed.

Lemma slice_incl {A} (l : list A) (start stop : Z) :
  incl (slice l start stop) l.
Proof.
  intros x Hx. unfold slice in Hx.
  apply in_firstn in Hx. now apply in_skipn in Hx.
Qed.

End OrderFacts.

(** ** The trivia views, one by one *)

Module TriviaViews.
Import Py Flask Sql Trivia PyFacts SqlFacts FlaskFacts OrderFacts TriviaFacts.
Local Open Scope flask_scope.
Local Open Scope list_scope.

(** *** Pages *)

(** Pagination loses nothing and repeats nothing: item [k] of the sequence
    is item [k mod 10] of page [k / 10 + 1]. *)
Theorem paginated_questions_covers {B} (request : request B)
    (selection : list Question.t) (k : nat) (d : db) :
  args_page request = Some (Z.of_nat (k / 10) + 1) ->
  exists page,
    paginated_questions request selection d = (Ok page, d) /\
    nth_error page (k mod 10) = nth_error (map Question.format selection) k.
Proof.
  intros Hpage. unfold paginated_questions, args_get_page, ret.
  rewrite Hpage. eexists. split; [reflexivity | ].
  unfold QUESTIONS_PER_PAGE.
  pose proof (Nat.div_mod_eq k 10) as Hk.
  pose proof (Nat.mod_upper_bound k 10 ltac:(discriminate)) as Hlt.
  rewrite slice_front by lia.
  rewrite nth_error_firstn.
  replace (Z.to_nat ((Z.of_nat (k / 10) + 1 - 1) * 10 + 10
                     - (Z.of_nat (k / 10) + 1 - 1) * 10)) with 10%nat by lia.
  apply Nat.ltb_lt in Hlt. rewrite Hlt.
  rewrite nth_error_skipn. f_equal. apply Nat.ltb_lt in Hlt. lia.
Qed.

Lemma paginated_questions_covers_witness :
  exists page,
    paginated_questions (Sample.get_page 2)
      (questions Sample.trivia_db) Sample.trivia_db
    = (Ok page, Sample.trivia_db) /\
    nth_error page 1
    = Some (Question.format (Sample.row 12 "Who painted the Mona Lisa?" 2)).
Proof.
  destruct (paginated_questions_covers (Sample.get_page 2)
              (questions Sample.trivia_db) 11 Sample.trivia_db eq_refl)
    as (page & Hrun & Hnth).
  exists page. split; [exact Hrun | exact Hnth].
Defined.

(** A successful [GET /questions] lists questions of the store in ascending
    order of id, at least one of them. *)
Theorem retrieve_questions_ascending {B} (request : request B) (d d' : db)
    (r : response) :
  serve (retrieve_questions request) d = (r, d') ->
  status r = 200 ->
  exists rows,
    field r "questions" = Some (JList (map Question.format rows)) /\
    ascending Question.id rows /\
    incl rows (questions d) /\
    rows <> [].
Proof.
  unfold serve, full_dispatch_request, retrieve_questions.
  rewrite bind_gets.
  rewrite (bind_ok _ _ d d _ (paginated_questions_run request _ d)).
  cbv zeta. rewrite slice_map.
  set (rows := slice (order_by Question.id (questions d)) _ _).
  destruct (len (map Question.format rows) =? 0) eqn:E.
  - intros Hrun Hstatus. injection Hrun as <- _. discriminate.
  - intros Hrun _. injection Hrun as <- _.
    exists rows. split; [reflexivity | split; [ | split]].
    + apply ascending_slice, order_by_ascending.
    + intros q Hq. apply slice_incl in Hq. now apply in_order_by in Hq.
    + intros Hnil. rewrite Hnil in E. discriminate.
Qed.

Lemma retrieve_questions_ascending_witness :
  exists rows,
    field (fst (serve (retrieve_questions (Sample.get_page 2)) Sample.trivia_db))
          "questions"
    = Some (JList (map Question.format rows)) /\
    ascending Question.id rows.
Proof.
  destruct (retrieve_questions_ascending (Sample.get_page 2)
              Sample.trivia_db Sample.trivia_db _ eq_refl eq_refl)
    as (rows & Hfield & Hasc & _).
  exists rows. split; assumption.
Defined.

(** *** Categories *)

Lemma key_eqb_eq (a b : key) : key_eqb a b = true <-> a = b.
Proof.
  destruct a as [s | x], b as [t | y]; cbn; try (split; discriminate).
  - rewrite String.eqb_eq. split; congruence.
  - rewrite Z.eqb_eq. split; congruence.
Qed.

(** Reading a dictionary after an update. *)
Lemma dict_get_update (items : list (key * json)) (k k' : key) (v : json) :
  dict_get (dict_update items k v) k'
  = if key_eqb k k' then Some v else dict_get items k'.
Proof.
  induction items as [| [k0 v0] items IH]; [reflexivity | ].
  cbn [dict_update]. destruct (key_eqb k0 k) eqn:E0.
  - apply key_eqb_eq in E0. subst k0. cbn [dict_get].
    now destruct (key_eqb k k').
  - cbn [dict_get]. rewrite IH.
    destruct (key_eqb k0 k') eqn:E1; [ | reflexivity].
    destruct (key_eqb k k') eqn:E2; [ | reflexivity].
    apply key_eqb_eq in E1, E2. subst.
    assert (key_eqb k' k' = true) by now apply key_eqb_eq.
    congruence.
Qed.

Lemma collect_cons (acc : list (key * json)) (c : Category.t)
    (rows : list Category.t) :
  collect acc (c :: rows)
  = collect (dict_update acc (KInt (Category.id c)) (JStr (Category.type c)))
            rows.
Proof. reflexivity. Qed.

Lemma collect_sound (rows : list Category.t) (acc : list (key * json))
    (k : key) (v : json) :
  dict_get (collect acc rows) k = Some v ->
  dict_get acc k = Some v \/
  exists c, In c rows /\ k = KInt (Category.id c) /\ v = JStr (Category.type c).
Proof.
  revert acc. induction rows as [| c rows IH]; intros acc Hget; [now left | ].
  rewrite collect_cons in Hget. apply IH in Hget as [Hget | (c' & Hc' & H)].
  - rewrite dict_get_update in Hget.
    destruct (key_eqb (KInt (Category.id c)) k) eqn:E; [ | now left].
    apply key_eqb_eq in E. injection Hget as <-.
    right. exists c. split; [now left | now split].
  - right. exists c'. split; [now right | exact H].
Qed.

Lemma collect_keeps (rows : list Category.t) (acc : list (key * json))
    (k : key) :
  dict_get acc k <> None -> dict_get (collect acc rows) k <> None.
Proof.
  revert acc. induction rows as [| c rows IH]; intros acc Hget; [exact Hget | ].
  rewrite collect_cons. apply IH. rewrite dict_get_update.
  now destruct (key_eqb (KInt (Category.id c)) k).
Qed.

Lemma collect_complete (rows : list Category.t) (acc : list (key * json))
    (c : Category.t) :
  In c rows -> dict_get (collect acc rows) (KInt (Category.id c)) <> None.
Proof.
  revert acc. induction rows as [| c0 rows IH]; intros acc Hin;
    [contradiction | ].
  rewrite collect_cons. destruct Hin as [-> | Hin]; [ | now apply IH].
  apply collect_keeps. rewrite dict_get_update.
  assert (E : key_eqb (KInt (Category.id c)) (KInt (Category.id c)) = true)
    by now apply key_eqb_eq.
  rewrite E. discriminate.
Qed.

Lemma collect_untouched (rows : list Category.t) (acc : list (key * json))
    (k : Z) :
  ~ In k (map Category.id rows) ->
  dict_get (collect acc rows) (KInt k) = dict_get acc (KInt k).
Proof.
  revert acc. induction rows as [| c rows IH]; intros acc Hnot; [reflexivity | ].
  rewrite collect_cons. cbn [map In] in Hnot.
  rewrite IH by tauto. rewrite dict_get_update.
  destruct (key_eqb (KInt (Category.id c)) (KInt k)) eqn:E; [ | reflexivity].
  apply key_eqb_eq in E. injection E as E. tauto.
Qed.

Lemma collect_exact (rows : list Category.t) (acc : list (key * json))
    (c : Category.t) :
  NoDup (map Category.id rows) -> In c rows ->
  dict_get (collect acc rows) (KInt (Category.id c))
  = Some (JStr (Category.type c)).
Proof.
  revert acc. induction rows as [| c0 rows IH]; intros acc Hnd Hin;
    [contradiction | ].
  cbn [map] in Hnd. inversion Hnd as [| ? ? Hnot Hnd']; subst.
  rewrite collect_cons. destruct Hin as [-> | Hin].
  - rewrite collect_untouched by exact Hnot.
    rewrite dict_get_update.
    assert (E : key_eqb (KInt (Category.id c)) (KInt (Category.id c)) = true)
      by now apply key_eqb_eq.
    now rewrite E.
  - now apply IH.
Qed.

Lemma collect_nonempty (rows : list Category.t) (acc : list (key * json)) :
  acc <> [] \/ rows <> [] -> collect acc rows <> [].
Proof.
  revert acc. induction rows as [| c rows IH]; intros acc H.
  - destruct H as [H | H]; [exact H | contradiction].
  - rewrite collect_cons. apply IH. left.
    destruct acc as [| [k0 v0] acc]; cbn [dict_update]; [discriminate | ].
    destruct (key_eqb k0 (KInt (Category.id c))); discriminate.
Qed.

Lemma get_categories_collect (d : db) :
  get_categories d
  = (Ok (collect [] (order_by Category.id (categories d))), d).
Proof. reflexivity. Qed.

(** The mapping [get_categories] returns has a key for the id of every
    category and nothing else: each entry is the id and the type of a stored
    category.  Where the ids are unique, the entry of a category's id is
    that category's type. *)
Theorem get_categories_mapping (d : db) :
  exists mapping,
    get_categories d = (Ok mapping, d) /\
    (forall c, In c (categories d) ->
       dict_get mapping (KInt (Category.id c)) <> None) /\
    (forall k v, dict_get mapping k = Some v ->
       exists c, In c (categories d) /\
                 k = KInt (Category.id c) /\ v = JStr (Category.type c)) /\
    (NoDup (map Category.id (categories d)) ->
     forall c, In c (categories d) ->
       dict_get mapping (KInt (Category.id c))
       = Some (JStr (Category.type c))).
Proof.
  exists (collect [] (order_by Category.id (categories d))).
  split; [apply get_categories_collect | split; [ | split]].
  - intros c Hc. apply collect_complete. now apply in_order_by.
  - intros k v Hget. apply collect_sound in Hget as [Hget | (c & Hc & H)];
      [discriminate | ].
    exists c. split; [now apply in_order_by in Hc | exact H].
  - intros Hnd c Hc. apply collect_exact; [ | now apply in_order_by].
    apply Permutation_NoDup with (l := map Category.id (categories d));
      [ | exact Hnd].
    apply Permutation_map, Permutation_sym, order_by_perm.
Qed.

Lemma get_categories_mapping_witness :
  exists mapping,
    get_categories Sample.trivia_db = (Ok mapping, Sample.trivia_db) /\
    dict_get mapping (KInt 1) = Some (JStr "Science").
Proof.
  destruct (get_categories_mapping Sample.trivia_db)
    as (mapping & Hrun & _ & _ & Hexact).
  exists mapping. split; [exact Hrun | ].
  apply (Hexact ltac:(cbn; repeat constructor; cbn; intuition discriminate)
           {| Category.id := 1; Category.type := "Science" |}).
  cbn. tauto.
Defined.

(** [GET /categories] answers 404 when there is no category, and otherwise
    200 with a mapping that is not empty; it never changes the store. *)
Theorem retrieve_categories_response (d : db) :
  (categories d = [] ->
   serve retrieve_categories d
   = (error_envelope 404 "resource not found", d)) /\
  (categories d <> [] ->
   exists mapping,
     mapping <> [] /\
     get_categories d = (Ok mapping, d) /\
     serve retrieve_categories d
     = (jsonify [ (KStr "success", JBool true);
                  (KStr "categories", JDict mapping) ], d)).
Proof.
  unfold serve, full_dispatch_request, retrieve_categories.
  rewrite (bind_ok _ _ d d _ (get_categories_collect d)).
  split.
  - intros Hnil. rewrite Hnil. reflexivity.
  - intros Hne.
    exists (collect [] (order_by Category.id (categories d))).
    assert (Hmap : collect [] (order_by Category.id (categories d)) <> []).
    { apply collect_nonempty. right. intros Hnil.
      apply Hne. apply length_zero_iff_nil.
      rewrite <- (length_order_by Category.id), Hnil. reflexivity. }
    split; [exact Hmap | split; [apply get_categories_collect | ]].
    rewrite (len_nonzero _ Hmap). reflexivity.
Qed.

Lemma retrieve_categories_response_witness :
  serve retrieve_categories Sample.trivia_db
  = (jsonify [ (KStr "success", JBool true);
               (KStr "categories",
                JDict [ (KInt 1, JStr "Science"); (KInt 2, JStr "Art") ]) ],
     Sample.trivia_db) /\
  serve retrieve_categories
        {| questions := []; categories := [] |}
  = (error_envelope 404 "resource not found",
     {| questions := []; categories := [] |}).
Proof.
  split.
  - destruct (proj2 (retrieve_categories_response Sample.trivia_db))
      as (mapping & _ & Hrun & Hserve); [discriminate | ].
    rewrite Hserve. injection Hrun as <-. reflexivity.
  - apply (retrieve_categories_response {| questions := []; categories := [] |}).
    reflexivity.
Defined.

(** *** The questions of a category *)

(** [GET /categories/{id}/questions] answers 404 when the requested page of
    the category's questions is empty, in particular when no question is in
    the category; the store is unchanged. *)
Theorem retrieve_questions_by_category_empty {B} (request : request B)
    (category_id : Z) (d : db) :
  let start := (args_get_page request 1 - 1) * 10 in
  let selection :=
    filter (fun q => col_eqb (Question.category q) (Some category_id))
           (questions d) in
  (slice (map Question.format selection) start (start + 10) = [] ->
   serve (retrieve_questions_by_category request category_id) d
   = (error_envelope 404 "resource not found", d)) /\
  ((forall q, In q (questions d) ->
              Question.category q <> Some category_id) ->
   serve (retrieve_questions_by_category request category_id) d
   = (error_envelope 404 "resource not found", d)).
Proof.
  intros start selection.
  assert (Hempty :
    slice (map Question.format selection) start (start + 10) = [] ->
    serve (retrieve_questions_by_category request category_id) d
    = (error_envelope 404 "resource not found", d)).
  { intros Hpage.
    unfold serve, full_dispatch_request, retrieve_questions_by_category.
    rewrite bind_gets.
    rewrite (bind_ok _ _ d d _ (paginated_questions_run request _ d)).
    fold selection. fold start. rewrite Hpage. reflexivity. }
  split; [exact Hempty | ].
  intros Hnone. apply Hempty.
  replace selection with (@nil Question.t); [apply slice_nil | ].
  symmetry. apply filter_none. intros q Hq.
  specialize (Hnone q Hq).
  destruct (Question.category q) as [c | ]; [ | reflexivity].
  cbn. apply Z.eqb_neq. congruence.
Qed.

Lemma retrieve_questions_by_category_empty_witness :
  serve (retrieve_questions_by_category Sample.bare 10) Sample.trivia_db
  = (error_envelope 404 "resource not found", Sample.trivia_db) /\
  serve (retrieve_questions_by_category (Sample.get_page 3) 1) Sample.trivia_db
  = (error_envelope 404 "resource not found", Sample.trivia_db).
Proof.
  split.
  - apply (proj2 (retrieve_questions_by_category_empty Sample.bare 10
                    Sample.trivia_db)).
    intros q Hq. cbn in Hq.
    repeat (destruct Hq as [<- | Hq]; [discriminate | ]). contradiction.
  - apply (proj1 (retrieve_questions_by_category_empty (Sample.get_page 3) 1
                    Sample.trivia_db)).
    reflexivity.
Defined.

(** When the page is not empty but the category has no row, the lookup of
    the category's type fails on [None] and the answer is 500; the store is
    unchanged. *)
Theorem retrieve_questions_by_category_dangling {B} (request : request B)
    (category_id : Z) (d : db) :
  let start := (args_get_page request 1 - 1) * 10 in
  let selection :=
    filter (fun q => col_eqb (Question.category q) (Some category_id))
           (questions d) in
  slice (map Question.format selection) start (start + 10) <> [] ->
  (forall c, In c (categories d) -> Category.id c <> category_id) ->
  retrieve_questions_by_category request category_id d
  = (Raise AttributeError, d) /\
  serve (retrieve_questions_by_category request category_id) d
  = (error_envelope 500 "internal server error", d).
Proof.
  intros start selection Hpage Hnone.
  assert (Hview : retrieve_questions_by_category request category_id d
                  = (Raise AttributeError, d)).
  { unfold retrieve_questions_by_category.
    rewrite bind_gets.
    rewrite (bind_ok _ _ d d _ (paginated_questions_run request _ d)).
    fold selection. fold start. rewrite (len_nonzero _ Hpage).
    rewrite bind_gets.
    assert (Hget : get Category.id category_id (categories d) = None).
    { unfold get.
      destruct (find (fun x => Category.id x =? category_id) (categories d))
        as [c | ] eqn:E; [ | reflexivity].
      apply find_some in E as [Hin E]. apply Z.eqb_eq in E.
      now apply Hnone in Hin. }
    rewrite Hget. reflexivity. }
  split; [exact Hview | ].
  unfold serve, full_dispatch_request. rewrite Hview. reflexivity.
Qed.

Lemma retrieve_questions_by_category_dangling_witness :
  serve (retrieve_questions_by_category Sample.bare 2)
        {| questions := questions Sample.trivia_db; categories := [] |}
  = (error_envelope 500 "internal server error",
     {| questions := questions Sample.trivia_db; categories := [] |}).
Proof.
  apply (retrieve_questions_by_category_dangling Sample.bare 2
           {| questions := questions Sample.trivia_db; categories := [] |}).
  - discriminate.
  - intros c [].
Defined.

(** *** The quiz *)

Lemma not_in_spec (prev : list Z) (q : Question.t) :
  not_in prev q = true <-> ~ In (Question.id q) prev.
Proof.
  unfold not_in. rewrite negb_true_iff. split.
  - intros Hex Hin.
    assert (existsb (fun i => Question.id q =? i) prev = true)
      by (apply existsb_exists; exists (Question.id q);
          split; [exact Hin | apply Z.eqb_refl]).
    congruence.
  - intros Hnot. destruct (existsb _ prev) eqn:E; [ | reflexivity].
    apply existsb_exists in E as (i & Hi & E). apply Z.eqb_eq in E.
    subst i. contradiction.
Qed.

Lemma quiz_candidates (category_id : option Z) (prev : list Z)
    (l : list Question.t) :
  (if col_eqb category_id (Some 0) then filter (not_in prev) l
   else filter (fun q => col_eqb (Question.category q) category_id
                         && not_in prev q) l)
  = filter (fun q => in_quiz_category category_id q && not_in prev q) l.
Proof.
  unfold in_quiz_category.
  destruct (col_eqb category_id (Some 0)); reflexivity.
Qed.

Lemma choice_in {A} (r : nat) (seq : list A) (d : db) :
  seq <> [] -> exists x, choice r seq d = (Ok x, d) /\ In x seq.
Proof.
  intros Hne. unfold choice. rewrite (len_nonzero seq Hne).
  assert (Hlen : length seq <> 0%nat)
    by (intros H; apply Hne; now apply length_zero_iff_nil).
  pose proof (Nat.mod_upper_bound r (length seq) Hlen) as Hlt.
  destruct (nth_error seq (r mod length seq)) as [x | ] eqn:E.
  - exists x. split; [reflexivity | now apply nth_error_In in E].
  - apply nth_error_None in E. lia.
Qed.

(** While a question of the selected category (0 selecting every category)
    is left that is not among [previous_questions], [POST /quizzes] answers
    200 with a question of the store, of that category, that is not among
    them, whatever number the random generator draws; the store is
    unchanged. *)
Theorem create_quiz_question (r : nat) (request : request quiz_form)
    (prev : list Z) (category_id : option Z) (d : db) :
  get_json request = Some {| previous_questions := Some prev;
                             quiz_category := Some category_id |} ->
  (exists q, In q (questions d) /\
             in_quiz_category category_id q = true /\
             ~ In (Question.id q) prev) ->
  exists q,
    serve (create_quiz r request) d
    = (jsonify [ (KStr "success", JBool true);
                 (KStr "question", Question.format q) ], d) /\
    In q (questions d) /\
    in_quiz_category category_id q = true /\
    ~ In (Question.id q) prev.
Proof.
  intros Hbody (q0 & Hin0 & Hcat0 & Hprev0).
  set (candidates := filter (fun q => in_quiz_category category_id q
                                      && not_in prev q) (questions d)).
  assert (Hne : candidates <> []).
  { intros Hnil.
    assert (Hq0 : In q0 candidates).
    { apply filter_In. split; [exact Hin0 | ].
      rewrite Hcat0. now apply not_in_spec. }
    rewrite Hnil in Hq0. contradiction. }
  destruct (choice_in r candidates d Hne) as (q & Hchoice & Hq).
  exists q. apply filter_In in Hq as [Hin Hq].
  apply andb_true_iff in Hq as [Hcat Hprev].
  split; [ | split; [exact Hin | split; [exact Hcat | now apply not_in_spec]]].
  unfold serve, full_dispatch_request, create_quiz.
  rewrite Hbody. unfold attr.
  rewrite bind_ret. cbn [previous_questions quiz_category].
  rewrite !bind_ret.
  rewrite bind_gets, quiz_candidates. fold candidates.
  rewrite (bind_ok _ _ d d _ Hchoice). reflexivity.
Qed.

Lemma create_quiz_question_witness :
  exists q,
    serve (create_quiz 7 (Sample.quiz [1; 2; 3] 0)) Sample.trivia_db
    = (jsonify [ (KStr "success", JBool true);
                 (KStr "question", Question.format q) ], Sample.trivia_db) /\
    ~ In (Question.id q) [1; 2; 3].
Proof.
  destruct (create_quiz_question 7 (Sample.quiz [1; 2; 3] 0) [1; 2; 3]
              (Some 0) Sample.trivia_db eq_refl) as (q & Hserve & _ & _ & Hprev).
  - exists (Sample.row 4 "What boils at 100 degrees?" 1).
    split; [cbn; tauto | split; [reflexivity | ]].
    cbn. intuition discriminate.
  - exists q. split; assumption.
Defined.

(** *** Requests without the body the view reads *)

(** [POST /questions] and [POST /quizzes] read the body before any [try]:
    without a JSON body, and for the quiz also without [quiz_category] or
    without [previous_questions], the answer is 500, not 422, and the store
    is unchanged. *)
Theorem post_without_body (lower : N -> N) (r : nat)
    (post : request question_form) (quiz : request quiz_form) (d : db) :
  (get_json post = None ->
   serve (create_questions lower post) d
   = (error_envelope 500 "internal server error", d)) /\
  (get_json quiz = None \/
   (exists body, get_json quiz = Some body /\
                 (quiz_category body = None \/ previous_questions body = None)) ->
   serve (create_quiz r quiz) d
   = (error_envelope 500 "internal server error", d)).
Proof.
  split.
  - intros Hbody.
    unfold serve, full_dispatch_request, create_questions. now rewrite Hbody.
  - intros [Hbody | (body & Hbody & Hfield)];
      unfold serve, full_dispatch_request, create_quiz; rewrite Hbody;
      [reflexivity | ].
    unfold attr. rewrite bind_ret.
    destruct (quiz_category body) as [category_id | ]; [ | reflexivity].
    rewrite bind_ret.
    destruct Hfield as [Hfield | Hfield]; [discriminate | ].
    now rewrite Hfield.
Qed.

Lemma post_without_body_witness :
  serve (create_questions Sample.ascii_lower
           {| args_page := None; get_json := None |})
        Sample.trivia_db
  = (error_envelope 500 "internal server error", Sample.trivia_db) /\
  serve (create_quiz 3 {| args_page := None;
                          get_json := Some {| previous_questions := None;
                                              quiz_category := Some (Some 1) |} |})
        Sample.trivia_db
  = (error_envelope 500 "internal server error", Sample.trivia_db).
Proof.
  split.
  - apply (proj1 (post_without_body Sample.ascii_lower 3
                    {| args_page := None; get_json := None |}
                    {| args_page := None; get_json := None |} Sample.trivia_db)).
    reflexivity.
  - apply (proj2 (post_without_body Sample.ascii_lower 3
                    {| args_page := None; get_json := None |}
                    {| args_page := None;
                       get_json := Some {| previous_questions := None;
                                           quiz_category := Some (Some 1) |} |}
                    Sample.trivia_db)).
    right. eexists. split; [reflexivity | right; reflexivity].
Defined.

(** *** Deleting, again *)

Lemma delete_question_present {B} (request : request B) (q : Question.t)
    (d : db) :
  NoDup (map Question.id (questions d)) -> In q (questions d) ->
  serve (delete_question request (Question.id q)) d
  = (jsonify [ (KStr "success", JBool true);
               (KStr "deleted", JInt (Question.id q)) ],
     without (Question.id q) d).
Proof.
  intros Hnodup Hin.
  unfold serve, full_dispatch_request, delete_question, try_except,
    delete_question_try, bind, gets.
  rewrite (filter_unique Question.id (questions d) q Hnodup Hin).
  reflexivity.
Qed.

Lemma absent_without (question_id : Z) (d : db) :
  absent question_id (without question_id d).
Proof.
  intros r Hr. cbn [without questions] in Hr.
  apply filter_In in Hr as [_ Hr].
  apply negb_true_iff in Hr. now apply Z.eqb_neq.
Qed.

Lemma serve_delete_absent {B} (request : request B) (question_id : Z)
    (d : db) :
  absent question_id d ->
  serve (delete_question request question_id) d
  = (error_envelope 422 "unprocessable", d).
Proof.
  intros Habs. unfold serve, full_dispatch_request.
  now rewrite (delete_question_absent request question_id d Habs).
Qed.

(** Deleting is not idempotent: in a store of unique ids, a [DELETE] of a
    present question answers 200, and the same [DELETE] sent again is
    answered 422 and changes nothing more. *)
Theorem delete_question_twice {B C} (first : request B) (second : request C)
    (question_id : Z) (d : db) :
  NoDup (map Question.id (questions d)) ->
  (exists q, In q (questions d) /\ Question.id q = question_id) ->
  exists d',
    serve (delete_question first question_id) d
    = (jsonify [ (KStr "success", JBool true);
                 (KStr "deleted", JInt question_id) ], d') /\
    serve (delete_question second question_id) d'
    = (error_envelope 422 "unprocessable", d').
Proof.
  intros Hnodup (q & Hin & <-).
  exists (without (Question.id q) d). split.
  - now apply delete_question_present.
  - apply serve_delete_absent, absent_without.
Qed.

Lemma delete_question_twice_witness :
  exists d',
    serve (delete_question Sample.bare 5) Sample.trivia_db
    = (jsonify [ (KStr "success", JBool true); (KStr "deleted", JInt 5) ], d')
    /\ serve (delete_question Sample.bare 5) d'
       = (error_envelope 422 "unprocessable", d').
Proof.
  apply (delete_question_twice Sample.bare Sample.bare 5 Sample.trivia_db).
  - cbn. repeat constructor; cbn; intuition discriminate.
  - exists (Sample.row 5 "What is 100% of nothing?" 1).
    split; [cbn; tauto | reflexivity].
Defined.

Lemma NoDup_map_filter {A} (key : A -> Z) (f : A -> bool) (l : list A) :
  NoDup (map key l) -> NoDup (map key (filter f l)).
Proof.
  induction l as [| x l IH]; intros Hnd; [exact Hnd | ].
  cbn [map] in Hnd. inversion Hnd as [| ? ? Hnot Hnd']; subst.
  cbn [filter]. destruct (f x); [ | now apply IH].
  cbn [map]. constructor; [ | now apply IH].
  intros Hin. apply Hnot. apply in_map_iff in Hin as (y & Hy & Hin).
  apply filter_In in Hin as [Hin _]. rewrite <- Hy. now apply in_map.
Qed.

Lemma without_length (q : Question.t) (d : db) :
  NoDup (map Question.id (questions d)) -> In q (questions d) ->
  len (questions (without (Question.id q) d)) = len (questions d) - 1.
Proof.
  intros Hnodup Hin. unfold len. cbn [without questions].
  pose proof (filter_length (fun r => Question.id r =? Question.id q)
                (questions d)) as Hlen.
  rewrite (filter_unique Question.id (questions d) q Hnodup Hin) in Hlen.
  cbn [length] in Hlen. lia.
Qed.

(** In a store of unique ids, [DELETE /questions/{id}] keeps the ids unique;
    it lowers the number of questions, which [GET /questions] reports as
    [total_questions], by exactly one when the id is present and leaves the
    store as it is when the id is absent. *)
Theorem delete_question_count {B} (request : request B) (question_id : Z)
    (d : db) :
  NoDup (map Question.id (questions d)) ->
  let d' := snd (serve (delete_question request question_id) d) in
  NoDup (map Question.id (questions d')) /\
  ((exists q, In q (questions d) /\ Question.id q = question_id) ->
   len (questions d') = len (questions d) - 1) /\
  (absent question_id d -> d' = d).
Proof.
  intros Hnodup d'. split; [ | split].
  - subst d'.
    destruct (find (fun q => Question.id q =? question_id) (questions d))
      as [q | ] eqn:E.
    + apply find_some in E as [Hin E]. apply Z.eqb_eq in E. subst question_id.
      rewrite (delete_question_present request q d Hnodup Hin).
      cbn [snd without questions]. now apply NoDup_map_filter.
    + rewrite serve_delete_absent; [exact Hnodup | ].
      intros q Hq. apply Z.eqb_neq. exact (find_none _ _ E q Hq).
  - intros (q & Hin & <-). subst d'.
    rewrite (delete_question_present request q d Hnodup Hin).
    now apply without_length.
  - intros Habs. subst d'. now rewrite serve_delete_absent.
Qed.

Lemma delete_question_count_witness :
  len (questions (snd (serve (delete_question Sample.bare 3) Sample.trivia_db)))
  = 11.
Proof.
  destruct (delete_question_count Sample.bare 3 Sample.trivia_db)
    as (_ & Hlen & _).
  - cbn. repeat constructor; cbn; intuition discriminate.
  - rewrite Hlen; [reflexivity | ].
    exists (Sample.row 3 "How many moons has Mars?" 1).
    split; [cbn; tauto | reflexivity].
Defined.

(** *** What every view answers, and what the reading views leave alone *)

Ltac run_view :=
  unfold serve, full_dispatch_request,
    retrieve_categories, retrieve_questions, delete_question,
    delete_question_try, create_questions, create_questions_try,
    retrieve_questions_by_category, create_quiz,
    get_categories, paginated_questions, search_query, choice,
    Question_insert, Question_delete, one_or_none,
    try_except, attr, bind, gets, modify, ret, abort, raise.

Ltac split_cases :=
  repeat match goal with
         | |- context [match ?x with _ => _ end] =>
             lazymatch x with
             | context [match _ with _ => _ end] => fail
             | _ => destruct x eqn:?
             end
         end.

(** The statuses of the views that read no body, whatever the request:
    [GET /categories] and [GET /questions] answer 200 or 404, never 422 or
    500; [DELETE /questions/{id}] answers 200 or 422, never 404 or 500; and
    [GET /categories/{id}/questions] answers 200, 404 or 500.  None of them
    answers 400. *)
Theorem trivia_statuses {B} (get : request B) (n : Z) (d : db) :
  let answer view := status (fst (serve view d)) in
  (answer retrieve_categories = 200 \/ answer retrieve_categories = 404) /\
  (answer (retrieve_questions get) = 200 \/
   answer (retrieve_questions get) = 404) /\
  (answer (delete_question get n) = 200 \/
   answer (delete_question get n) = 422) /\
  (answer (retrieve_questions_by_category get n) = 200 \/
   answer (retrieve_questions_by_category get n) = 404 \/
   answer (retrieve_questions_by_category get n) = 500).
Proof.
  cbv zeta. repeat split.
  - run_view. split_cases; cbn; auto.
  - run_view. split_cases; cbn; auto.
  - run_view. split_cases; cbn; auto.
  - run_view. split_cases; cbn; auto.
Qed.

(** The views that only read, the three [GET] views and the quiz, hand the
    store back as they found it, whatever they answer. *)
Theorem reading_views_keep_store {B} (get : request B)
    (quiz : request quiz_form) (r : nat) (n : Z) (d : db) :
  snd (serve retrieve_categories d) = d /\
  snd (serve (retrieve_questions get) d) = d /\
  snd (serve (retrieve_questions_by_category get n) d) = d /\
  snd (serve (create_quiz r quiz) d) = d.
Proof.
  repeat split.
  - run_view. split_cases; reflexivity.
  - run_view. split_cases; reflexivity.
  - run_view. split_cases; reflexivity.
  - run_view. split_cases; reflexivity.
Qed.

(** *** Creating a question *)

Lemma Question_insert_run (question answer : option str)
    (difficulty category : option Z) (d : db) :
  Question_insert question answer difficulty category d
  = if match category with
       | Some c => existsb (fun k => Category.id k =? c) (categories d)
       | None => true
       end
    then (Ok tt,
          {| questions :=
               questions d ++
               [ {| Question.id :=
                      1 + fold_right Z.max 0 (map Question.id (questions d));
                    Question.question := question;
                    Question.answer := answer;
                    Question.category := category;
                    Question.difficulty := difficulty |} ];
             categories := categories d |})
    else (Raise IntegrityError, d).
Proof.
  unfold Question_insert. rewrite bind_gets.
  destruct (match category with
            | Some c => existsb (fun k => Category.id k =? c) (categories d)
            | None => true
            end); reflexivity.
Qed.

(** [POST /questions] without a search term (none, or an empty one) answers
    with a bare success flag, or with 422 when the insert failed: on
    success the store has one more question, last, carrying the four fields
    of the body and never echoed; on 422 the store is unchanged. *)
Theorem create_questions_insert (lower : N -> N)
    (post : request question_form) (body : question_form) (d : db) :
  get_json post = Some body ->
  truthy (form_searchTerm body) = false ->
  (fst (serve (create_questions lower post) d)
   = jsonify [ (KStr "success", JBool true) ] /\
   exists q,
     questions (snd (serve (create_questions lower post) d)) = questions d ++ [q] /\
     categories (snd (serve (create_questions lower post) d)) = categories d /\
     Question.question q = form_question body /\
     Question.answer q = form_answer body /\
     Question.difficulty q = form_difficulty body /\
     Question.category q = form_category body) \/
  (serve (create_questions lower post) d
   = (error_envelope 422 "unprocessable", d)).
Proof.
  intros Hbody Hsearch.
  assert (Hrun :
    serve (create_questions lower post) d
    = match Question_insert (form_question body) (form_answer body)
              (form_difficulty body) (form_category body) d with
      | (Ok _, d') => (jsonify [ (KStr "success", JBool true) ], d')
      | (Raise _, d') => (error_envelope 422 "unprocessable", d')
      end).
  { unfold serve, full_dispatch_request, create_questions.
    rewrite Hbody. unfold attr. rewrite bind_ret.
    unfold try_except, create_questions_try. rewrite Hsearch.
    unfold bind at 1.
    destruct (Question_insert _ _ _ _ d) as [[[] | e] d']; reflexivity. }
  rewrite Hrun, Question_insert_run.
  destruct (match form_category body with
            | Some c => existsb (fun k => Category.id k =? c) (categories d)
            | None => true
            end).
  - left. split; [reflexivity | ].
    eexists. repeat split; reflexivity.
  - right. reflexivity.
Qed.

Lemma create_questions_insert_witness :
  fst (serve (create_questions Sample.ascii_lower Sample.blank_search) Sample.trivia_db)
  = jsonify [ (KStr "success", JBool true) ] /\
  len (questions (snd (serve (create_questions Sample.ascii_lower Sample.blank_search)
                         Sample.trivia_db))) = 13.
Proof.
  destruct (create_questions_insert Sample.ascii_lower Sample.blank_search
              {| form_question := Some (u "What is the largest country?");
                 form_answer := Some (u "Russia");
                 form_difficulty := Some 2;
                 form_category := Some 1;
                 form_searchTerm := Some (u "") |}
              Sample.trivia_db eq_refl eq_refl)
    as [(Hresp & q & Hq & _) | H422].
  - split; [exact Hresp | ]. rewrite Hq. unfold len.
    rewrite length_app. reflexivity.
  - discriminate.
Defined.

(** *** Searching *)

Lemma slice_length_le {A} (l : list A) (start stop : Z) :
  (length (slice l start stop) <= length l)%nat.
Proof.
  unfold slice. rewrite length_firstn, length_skipn. lia.
Qed.

Section Folding.
(** The case folding of the database. *)
Variable lower : N -> N.

(** [POST /questions] with a non-empty search term answers 200 with
    questions of the store that the search matches, in ascending order of
    id, and with a [total_questions] that is at least their number; it
    inserts nothing, whatever other fields the body carries. *)
Theorem search_results (post : request question_form)
    (body : question_form) (term : str) (d : db) :
  get_json post = Some body ->
  form_searchTerm body = Some term ->
  term <> "" ->
  exists rows total,
    serve (create_questions lower post) d
    = (jsonify [ (KStr "success", JBool true);
                 (KStr "questions", JList (map Question.format rows));
                 (KStr "total_questions", JInt total);
                 (KStr "current_category", JStr "All") ], d) /\
    ascending Question.id rows /\
    (forall q, In q rows ->
               In q (questions d) /\ search_matches lower term q = true) /\
    len rows <= total.
Proof.
  intros Hbody Hterm Hne.
  set (found := filter (search_matches lower term)
                       (order_by Question.id (questions d))).
  set (start := (args_get_page post 1 - 1) * 10).
  exists (slice found start (start + 10)), (len found).
  split; [ | split; [ | split]].
  - rewrite (create_questions_search lower post body term d Hbody Hterm Hne).
    fold found. fold start. now rewrite slice_map.
  - apply ascending_slice, ascending_filter, order_by_ascending.
  - intros q Hq. apply slice_incl in Hq. apply filter_In in Hq as [Hq Hm].
    split; [now apply in_order_by in Hq | exact Hm].
  - unfold len. pose proof (slice_length_le found start (start + 10)). lia.
Qed.

(** Two characters that fold alike are special in a pattern, each in its
    way, together or not at all. *)
Lemma keeps_meta_eq (c c' : N) :
  keeps_meta lower -> lower c = lower c' ->
  N.eqb c' percent = N.eqb c percent /\
  N.eqb c' underscore = N.eqb c underscore /\
  N.eqb c' backslash = N.eqb c backslash.
Proof.
  intros Hkeep Hc.
  repeat split.
  - rewrite <- (Hkeep c' percent eq_refl), <- (Hkeep c percent eq_refl).
    now rewrite Hc.
  - rewrite <- (Hkeep c' underscore eq_refl), <- (Hkeep c underscore eq_refl).
    now rewrite Hc.
  - rewrite <- (Hkeep c' backslash eq_refl), <- (Hkeep c backslash eq_refl).
    now rewrite Hc.
Qed.

Lemma parsed_alike_cons (a a' : like_tok) (p p' : option (list like_tok)) :
  tok_ci lower a a' -> parsed_alike lower p p' ->
  parsed_alike lower (option_map (cons a) p) (option_map (cons a') p').
Proof.
  intros Ha Hp. destruct p, p'; cbn in *; try contradiction; auto.
Qed.

Lemma like_pattern_ci (n : nat) (t t' : str) :
  keeps_meta lower ->
  (length t <= n)%nat ->
  map lower t = map lower t' ->
  parsed_alike lower (like_pattern t) (like_pattern t').
Proof.
  intros Hkeep. revert t t'. induction n as [| n IH]; intros t t' Hlen Hmap.
  - destruct t; [ | cbn in Hlen; lia].
    destruct t'; [constructor | discriminate].
  - destruct t as [| c t], t' as [| c' t']; try discriminate; [constructor | ].
    cbn [map] in Hmap. injection Hmap as Hc Hmap. cbn [length] in Hlen.
    destruct (keeps_meta_eq c c' Hkeep Hc) as (H1 & H2 & H3).
    cbn [like_pattern]. rewrite H1, H2, H3.
    assert (Hrest : parsed_alike lower (like_pattern t) (like_pattern t'))
      by (apply IH; [lia | exact Hmap]).
    destruct (N.eqb c percent);
      [now apply parsed_alike_cons | ].
    destruct (N.eqb c underscore);
      [now apply parsed_alike_cons | ].
    destruct (N.eqb c backslash);
      [ | now apply parsed_alike_cons].
    destruct t as [| e t], t' as [| e' t']; try discriminate; [exact I | ].
    cbn [map] in Hmap. injection Hmap as He Hmap. cbn [length] in Hlen.
    apply parsed_alike_cons; [exact He | ].
    apply IH; [lia | exact Hmap].
Qed.

Lemma like_match_ci (p p' : list like_tok) :
  Forall2 (tok_ci lower) p p' ->
  forall s, like_match lower p s = like_match lower p' s.
Proof.
  induction 1 as [| a a' p p' Ha Hp IH]; intros s; [reflexivity | ].
  destruct a, a'; cbn in Ha; try contradiction.
  - induction s as [| c s IHs].
    + rewrite !like_match_any. now rewrite IH.
    + rewrite (like_match_any lower p), (like_match_any lower p').
      now rewrite IH, IHs.
  - destruct s; cbn [like_match]; auto.
  - destruct s; cbn [like_match]; [reflexivity | ]. now rewrite Ha, IH.
Qed.

Lemma search_matches_ci (term term' : str) (q : Question.t) :
  keeps_meta lower ->
  map lower term = map lower term' ->
  search_matches lower term q = search_matches lower term' q.
Proof.
  intros Hkeep Hmap. unfold search_matches.
  pose proof (like_pattern_ci (length (u "%" ++ term ++ u "%"))
                (u "%" ++ term ++ u "%") (u "%" ++ term' ++ u "%")
                Hkeep (le_n _)) as Halike.
  rewrite !search_pattern_chars in Halike.
  cbn [map] in Halike. rewrite !map_app, Hmap in Halike.
  specialize (Halike eq_refl). rewrite !search_pattern_chars.
  destruct (like_pattern _) as [p | ], (like_pattern _) as [p' | ];
    cbn in Halike; try contradiction; [ | reflexivity].
  unfold ilike. destruct (Question.question q); [ | reflexivity].
  now apply like_match_ci.
Qed.

(** The search is blind to the letter case of the term: two non-empty terms
    that the case folding of the database makes equal get the same answer
    for the same page.  (The folding leaves the characters a pattern reads
    specially alone.) *)
Theorem search_case_blind (post post' : request question_form)
    (body body' : question_form) (term term' : str) (d : db) :
  keeps_meta lower ->
  get_json post = Some body -> form_searchTerm body = Some term ->
  get_json post' = Some body' -> form_searchTerm body' = Some term' ->
  term <> "" -> term' <> "" ->
  args_page post = args_page post' ->
  map lower term = map lower term' ->
  serve (create_questions lower post) d
  = serve (create_questions lower post') d.
Proof.
  intros Hkeep Hbody Hterm Hbody' Hterm' Hne Hne' Hpage Hmap.
  rewrite (create_questions_search lower post body term d Hbody Hterm Hne).
  rewrite (create_questions_search lower post' body' term' d
             Hbody' Hterm' Hne').
  unfold args_get_page. rewrite Hpage.
  assert (Hfound :
    filter (search_matches lower term) (order_by Question.id (questions d))
    = filter (search_matches lower term')
             (order_by Question.id (questions d))).
  { apply filter_ext. intros q. now apply search_matches_ci. }
  now rewrite Hfound.
Qed.
End Folding.

Lemma search_results_witness :
  exists rows total,
    serve (create_questions Sample.ascii_lower (Sample.search "what is"))
          Sample.trivia_db
    = (jsonify [ (KStr "success", JBool true);
                 (KStr "questions", JList (map Question.format rows));
                 (KStr "total_questions", JInt total);
                 (KStr "current_category", JStr "All") ], Sample.trivia_db) /\
    ascending Question.id rows.
Proof.
  destruct (search_results Sample.ascii_lower (Sample.search "what is")
              {| form_question := None; form_answer := None;
                 form_difficulty := None; form_category := None;
                 form_searchTerm := Some (u "what is") |}
              "what is" Sample.trivia_db eq_refl eq_refl)
    as (rows & total & Hserve & Hasc & _); [discriminate | ].
  exists rows, total. split; assumption.
Defined.

(** The folding of the ASCII letters leaves [%], [_] and the backslash
    alone and turns no letter into one of them. *)
Lemma ascii_lower_keeps_meta : keeps_meta Sample.ascii_lower.
Proof.
  intros c m Hm. unfold like_meta, percent, underscore, backslash in Hm.
  unfold Sample.ascii_lower.
  destruct (N.leb 65 c) eqn:Hlo; destruct (N.leb c 90) eqn:Hhi;
    cbn [andb]; try reflexivity.
  apply N.leb_le in Hlo, Hhi.
  apply orb_true_iff in Hm as [Hm | Hm];
    [apply orb_true_iff in Hm as [Hm | Hm] | ];
    apply N.eqb_eq in Hm; subst m;
    transitivity false; [ | symmetry | | symmetry | | symmetry ];
    apply N.eqb_neq; lia.
Qed.

Lemma search_case_blind_witness :
  serve (create_questions Sample.ascii_lower (Sample.search "TiTLe"))
        Sample.trivia_db
  = serve (create_questions Sample.ascii_lower (Sample.search "title"))
          Sample.trivia_db.
Proof.
  apply (search_case_blind Sample.ascii_lower
           (Sample.search "TiTLe") (Sample.search "title")
           {| form_question := None; form_answer := None;
              form_difficulty := None; form_category := None;
              form_searchTerm := Some (u "TiTLe") |}
           {| form_question := None; form_answer := None;
              form_difficulty := None; form_category := None;
              form_searchTerm := Some (u "title") |}
           "TiTLe" "title" Sample.trivia_db ascii_lower_keeps_meta);
    try reflexivity; discriminate.
Defined.

End TriviaViews.

(** ** The coffee-shop views, one by one *)

Module CoffeeShopViews.
Import Py Flask Sql CoffeeShop SqlFacts FlaskFacts CoffeeShopFacts.
Local Open Scope flask_scope.
Local Open Scope list_scope.

Section Api.
Variable json_dumps : json -> string.
Variables long short : Drink.t -> json.

(** A token that lacks the permission of a guarded view is answered with
    the status and the body its [AuthError] carries, and the view's body
    does not run: the store is unchanged. *)
Theorem unauthorized_response (drink_id : Z) (request : request) (d : db)
    (permission : string) (status_code : Z) (error : json) :
  auth request permission = inr (status_code, error) ->
  let refusal := ({| status := status_code; body := Some error |}, d) in
  (permission = "get:drinks-detail" ->
   serve (retrieve_drinks_detail long request) d = refusal) /\
  (permission = "post:drinks" ->
   serve (create_drinks json_dumps long request) d = refusal) /\
  (permission = "patch:drinks" ->
   serve (update_drinks json_dumps long drink_id request) d = refusal) /\
  (permission = "delete:drinks" ->
   serve (delete_drinks drink_id request) d = refusal).
Proof.
  intros Hauth refusal. repeat split; intros ->;
    unfold serve, full_dispatch_request, retrieve_drinks_detail, create_drinks,
      update_drinks, delete_drinks, requires_auth;
    rewrite Hauth; reflexivity.
Qed.

(** [GET /drinks] answers 404 when there is no drink and otherwise 200 with
    the short representation of every drink, in table order; it does not
    look at the token.  [GET /drinks-detail], the permission granted, does
    the same with the long representation.  Neither changes the store. *)
Theorem retrieve_drinks_response (request : request) (d : db) :
  (drinks d = [] ->
   serve (retrieve_drinks short request) d
   = (error_envelope 404 "resource not found", d)) /\
  (drinks d <> [] ->
   serve (retrieve_drinks short request) d
   = (jsonify [ (KStr "success", JBool true);
                (KStr "drinks", JList (map short (drinks d))) ], d)) /\
  ((exists payload, auth request "get:drinks-detail" = inl payload) ->
   (drinks d = [] ->
    serve (retrieve_drinks_detail long request) d
    = (error_envelope 404 "resource not found", d)) /\
   (drinks d <> [] ->
    serve (retrieve_drinks_detail long request) d
    = (jsonify [ (KStr "success", JBool true);
                 (KStr "drinks", JList (map long (drinks d))) ], d))).
Proof.
  assert (Hlen : drinks d <> [] -> (Z.of_nat (length (drinks d)) =? 0) = false).
  { intros Hne. apply Z.eqb_neq. destruct (drinks d); [contradiction | ].
    cbn [length]. lia. }
  split; [ | split; [ | intros [payload Hauth]; split]].
  - intros Hnil. unfold serve, full_dispatch_request, retrieve_drinks.
    rewrite bind_gets, Hnil. reflexivity.
  - intros Hne. unfold serve, full_dispatch_request, retrieve_drinks.
    rewrite bind_gets, (Hlen Hne). reflexivity.
  - intros Hnil.
    unfold serve, full_dispatch_request, retrieve_drinks_detail, requires_auth.
    rewrite Hauth, bind_gets, Hnil. reflexivity.
  - intros Hne.
    unfold serve, full_dispatch_request, retrieve_drinks_detail, requires_auth.
    rewrite Hauth, bind_gets, (Hlen Hne). reflexivity.
Qed.

(** [POST /drinks] without a JSON body, or with a body that lacks [title] or
    [recipe], is answered 422, and nothing is written. *)
Theorem create_drinks_incomplete (request : request) (d : db) :
  (exists payload, auth request "post:drinks" = inl payload) ->
  get_json request = None \/
  (exists body, get_json request = Some body /\
                (form_title body = None \/ form_recipe body = None)) ->
  serve (create_drinks json_dumps long request) d
  = (error_envelope 422 "unprocessable", d).
Proof.
  intros [payload Hauth] Hbody.
  unfold serve, full_dispatch_request, create_drinks, requires_auth.
  rewrite Hauth. unfold try_except.
  destruct Hbody as [Hbody | (body & Hbody & Hfield)]; rewrite Hbody;
    [reflexivity | ].
  rewrite bind_ret.
  destruct (form_title body) as [title | ]; [ | reflexivity].
  rewrite bind_ret.
  destruct Hfield as [Hfield | Hfield]; [discriminate | ].
  rewrite Hfield. reflexivity.
Qed.

(** [POST /drinks] with a title and a recipe answers 200 with the long
    representation of one new drink, which carries the title and the recipe
    serialised by [json.dumps]; the drink is appended to the table and the
    insert is the one write committed. *)
Theorem create_drinks_created (request : request) (d : db)
    (body : drink_form) (title : option string) (recipe : json) :
  (exists payload, auth request "post:drinks" = inl payload) ->
  get_json request = Some body ->
  form_title body = Some title ->
  form_recipe body = Some recipe ->
  exists row,
    serve (create_drinks json_dumps long request) d
    = (jsonify [ (KStr "success", JBool true);
                 (KStr "drinks", JList [long row]) ],
       {| drinks := drinks d ++ [row];
          journal := journal d ++ [Inserted row] |}) /\
    Drink.title row = title /\
    Drink.recipe row = json_dumps recipe.
Proof.
  intros [payload Hauth] Hbody Htitle Hrecipe.
  exists {| Drink.id := 1 + fold_right Z.max 0 (map Drink.id (drinks d));
            Drink.title := title;
            Drink.recipe := json_dumps recipe |}.
  split; [ | split; reflexivity].
  unfold serve, full_dispatch_request, create_drinks, requires_auth.
  rewrite Hauth, Hbody. unfold try_except.
  rewrite bind_ret, Htitle, bind_ret, Hrecipe, bind_ret.
  reflexivity.
Qed.

Lemma lookup_present (drink : Drink.t) (d : db) :
  NoDup (map Drink.id (drinks d)) -> In drink (drinks d) ->
  lookup (Drink.id drink) d = (Ok (Some drink), d).
Proof.
  intros Hnodup Hin. unfold lookup. rewrite bind_gets.
  now rewrite (filter_unique Drink.id (drinks d) drink Hnodup Hin).
Qed.

(** [PATCH /drinks/{id}] for a drink of a table with unique ids answers 200
    with the long representation of the updated drink: it keeps its id,
    takes [title] and [recipe] from the body, and a key the body lacks is
    taken as [None], so that a body without [recipe] overwrites the recipe
    with [json.dumps(None)].  The other drinks and their order are kept,
    and the update is the one write committed. *)
Theorem update_drinks_updated (request : request) (d : db)
    (body : drink_form) (drink : Drink.t) :
  (exists payload, auth request "patch:drinks" = inl payload) ->
  NoDup (map Drink.id (drinks d)) ->
  In drink (drinks d) ->
  get_json request = Some body ->
  let updated :=
    {| Drink.id := Drink.id drink;
       Drink.title := match form_title body with
                      | Some t => t
                      | None => None
                      end;
       Drink.recipe := json_dumps match form_recipe body with
                                  | Some r => r
                                  | None => JNone
                                  end |} in
  serve (update_drinks json_dumps long (Drink.id drink) request) d
  = (jsonify [ (KStr "success", JBool true);
               (KStr "drinks", JList [long updated]) ],
     {| drinks := map (fun x => if Drink.id x =? Drink.id drink
                                then updated else x) (drinks d);
        journal := journal d ++ [Updated updated] |}) /\
  In updated (drinks (snd (serve (update_drinks json_dumps long
                                    (Drink.id drink) request) d))) /\
  (forall x, In x (drinks d) -> Drink.id x <> Drink.id drink ->
     In x (drinks (snd (serve (update_drinks json_dumps long
                                 (Drink.id drink) request) d)))).
Proof.
  intros [payload Hauth] Hnodup Hin Hbody updated.
  assert (Hserve :
    serve (update_drinks json_dumps long (Drink.id drink) request) d
    = (jsonify [ (KStr "success", JBool true);
                 (KStr "drinks", JList [long updated]) ],
       {| drinks := map (fun x => if Drink.id x =? Drink.id drink
                                  then updated else x) (drinks d);
          journal := journal d ++ [Updated updated] |})).
  { unfold serve, full_dispatch_request, update_drinks, requires_auth.
    rewrite Hauth.
    rewrite (bind_ok _ _ d d _ (lookup_present drink d Hnodup Hin)).
    unfold try_except, attr. rewrite Hbody, bind_ret. reflexivity. }
  rewrite Hserve. cbn [snd drinks]. split; [reflexivity | split].
  - apply in_map_iff. exists drink. split; [ | exact Hin].
    now rewrite Z.eqb_refl.
  - intros x Hx Hne. apply in_map_iff. exists x. split; [ | exact Hx].
    apply Z.eqb_neq in Hne. now rewrite Hne.
Qed.

(** [PATCH /drinks/{id}] for a present drink, sent without a JSON body, is
    answered 422 and nothing is written. *)
Theorem update_drinks_without_body (request : request) (d : db)
    (drink : Drink.t) :
  (exists payload, auth request "patch:drinks" = inl payload) ->
  NoDup (map Drink.id (drinks d)) ->
  In drink (drinks d) ->
  get_json request = None ->
  serve (update_drinks json_dumps long (Drink.id drink) request) d
  = (error_envelope 422 "unprocessable", d).
Proof.
  intros [payload Hauth] Hnodup Hin Hbody.
  unfold serve, full_dispatch_request, update_drinks, requires_auth.
  rewrite Hauth.
  rewrite (bind_ok _ _ d d _ (lookup_present drink d Hnodup Hin)).
  unfold try_except, attr. rewrite Hbody. reflexivity.
Qed.

(** [DELETE /drinks/{id}] for a drink of a table with unique ids answers
    200 with [delete] equal to the id; the drink is gone, the others stay,
    and the delete is the one write committed.  Sent again, or followed by
    a [PATCH] of the same id, it is answered 404 and changes nothing
    more. *)
Theorem delete_drinks_deleted (request again patch : request) (d : db)
    (drink : Drink.t) :
  (exists payload, auth request "delete:drinks" = inl payload) ->
  (exists payload, auth again "delete:drinks" = inl payload) ->
  (exists payload, auth patch "patch:drinks" = inl payload) ->
  NoDup (map Drink.id (drinks d)) ->
  In drink (drinks d) ->
  let d' := {| drinks := filter (fun x => negb (Drink.id x =? Drink.id drink))
                                (drinks d);
               journal := journal d ++ [Deleted (Drink.id drink)] |} in
  serve (delete_drinks (Drink.id drink) request) d
  = (jsonify [ (KStr "success", JBool true);
               (KStr "delete", JInt (Drink.id drink)) ], d') /\
  (forall x, In x (drinks d') <->
             In x (drinks d) /\ Drink.id x <> Drink.id drink) /\
  serve (delete_drinks (Drink.id drink) again) d'
  = (error_envelope 404 "resource not found", d') /\
  serve (update_drinks json_dumps long (Drink.id drink) patch) d'
  = (error_envelope 404 "resource not found", d').
Proof.
  intros [payload Hauth] Hagain Hpatch Hnodup Hin d'.
  assert (Hgone : forall x, In x (drinks d') -> Drink.id x <> Drink.id drink).
  { intros x Hx. cbn [d' drinks] in Hx. apply filter_In in Hx as [_ Hx].
    apply negb_true_iff in Hx. now apply Z.eqb_neq. }
  split; [ | split; [ | split]].
  - unfold serve, full_dispatch_request, delete_drinks, requires_auth.
    rewrite Hauth.
    rewrite (bind_ok _ _ d d _ (lookup_present drink d Hnodup Hin)).
    reflexivity.
  - intros x. cbn [d' drinks].
    rewrite filter_In, negb_true_iff, Z.eqb_neq. reflexivity.
  - destruct Hagain as [p Hagain].
    unfold serve, full_dispatch_request, delete_drinks, requires_auth.
    rewrite Hagain.
    rewrite (bind_ok _ _ d' d' _ (lookup_missing (Drink.id drink) d' Hgone)).
    reflexivity.
  - destruct Hpatch as [p Hpatch].
    unfold serve, full_dispatch_request, update_drinks, requires_auth.
    rewrite Hpatch.
    rewrite (bind_ok _ _ d' d' _ (lookup_missing (Drink.id drink) d' Hgone)).
    reflexivity.
Qed.

End Api.

Lemma coffee_ids : NoDup (map Drink.id (drinks Sample.coffee_db)).
Proof. cbn. repeat constructor. intros []. Qed.

Lemma water_in : In Sample.water (drinks Sample.coffee_db).
Proof. now left. Qed.

Lemma unauthorized_response_witness :
  serve (delete_drinks 1 Sample.stranger) Sample.coffee_db
  = ({| status := 401;
        body := Some (JDict [ (KStr "code", JStr "invalid_header");
                              (KStr "description", JStr "Unable to parse") ]) |},
     Sample.coffee_db).
Proof.
  destruct (unauthorized_response Sample.dumps Sample.repr 1 Sample.stranger
              Sample.coffee_db "delete:drinks" 401 _ eq_refl)
    as (_ & _ & _ & Hdelete).
  apply Hdelete. reflexivity.
Defined.

Lemma retrieve_drinks_response_witness :
  serve (retrieve_drinks Sample.repr Sample.stranger) Sample.coffee_db
  = (jsonify [ (KStr "success", JBool true);
               (KStr "drinks", JList [Sample.repr Sample.water]) ],
     Sample.coffee_db) /\
  serve (retrieve_drinks_detail Sample.repr Sample.barista)
        {| drinks := []; journal := [] |}
  = (error_envelope 404 "resource not found", {| drinks := []; journal := [] |}).
Proof.
  split.
  - apply (retrieve_drinks_response Sample.repr Sample.repr Sample.stranger
             Sample.coffee_db).
    discriminate.
  - destruct (retrieve_drinks_response Sample.repr Sample.repr Sample.barista
                {| drinks := []; journal := [] |}) as (_ & _ & Hdetail).
    apply Hdetail; [now exists JNone | reflexivity].
Defined.

Lemma create_drinks_incomplete_witness :
  serve (create_drinks Sample.dumps Sample.repr
           (Sample.order (Some (Some "latte")) None)) Sample.coffee_db
  = (error_envelope 422 "unprocessable", Sample.coffee_db).
Proof.
  apply (create_drinks_incomplete Sample.dumps Sample.repr
           (Sample.order (Some (Some "latte")) None) Sample.coffee_db).
  - now exists JNone.
  - right. eexists. split; [reflexivity | right; reflexivity].
Defined.

Lemma create_drinks_created_witness :
  exists row,
    serve (create_drinks Sample.dumps Sample.repr
             (Sample.order (Some (Some "latte")) (Some (JList []))))
          Sample.coffee_db
    = (jsonify [ (KStr "success", JBool true);
                 (KStr "drinks", JList [Sample.repr row]) ],
       {| drinks := [Sample.water; row];
          journal := [Inserted row] |}) /\
    Drink.title row = Some "latte" /\
    Drink.recipe row = "[...]".
Proof.
  exact (create_drinks_created Sample.dumps Sample.repr
           (Sample.order (Some (Some "latte")) (Some (JList [])))
           Sample.coffee_db _ (Some "latte") (JList [])
           (ex_intro _ JNone eq_refl) eq_refl eq_refl eq_refl).
Defined.

(** A [PATCH] that names the title alone leaves the recipe ["null"]. *)
Lemma update_drinks_updated_witness :
  snd (serve (update_drinks Sample.dumps Sample.repr 1
                (Sample.order (Some (Some "still water")) None))
             Sample.coffee_db)
  = {| drinks := [ {| Drink.id := 1;
                      Drink.title := Some "still water";
                      Drink.recipe := "null" |} ];
       journal := [ Updated {| Drink.id := 1;
                               Drink.title := Some "still water";
                               Drink.recipe := "null" |} ] |}.
Proof.
  destruct (update_drinks_updated Sample.dumps Sample.repr
              (Sample.order (Some (Some "still water")) None)
              Sample.coffee_db _ Sample.water
              (ex_intro _ JNone eq_refl) coffee_ids water_in eq_refl)
    as (Hserve & _).
  cbn [Drink.id Sample.water] in Hserve. rewrite Hserve. reflexivity.
Defined.

Lemma update_drinks_without_body_witness :
  serve (update_drinks Sample.dumps Sample.repr 1 Sample.barista)
        Sample.coffee_db
  = (error_envelope 422 "unprocessable", Sample.coffee_db).
Proof.
  apply (update_drinks_without_body Sample.dumps Sample.repr Sample.barista
           Sample.coffee_db Sample.water
           (ex_intro _ JNone eq_refl) coffee_ids water_in eq_refl).
Defined.

Lemma delete_drinks_deleted_witness :
  exists d',
    serve (delete_drinks 1 Sample.barista) Sample.coffee_db
    = (jsonify [ (KStr "success", JBool true); (KStr "delete", JInt 1) ], d') /\
    serve (delete_drinks 1 Sample.barista) d'
    = (error_envelope 404 "resource not found", d').
Proof.
  destruct (delete_drinks_deleted Sample.dumps Sample.repr
              Sample.barista Sample.barista Sample.barista
              Sample.coffee_db Sample.water
              (ex_intro _ JNone eq_refl) (ex_intro _ JNone eq_refl)
              (ex_intro _ JNone eq_refl) coffee_ids water_in)
    as (Hfirst & _ & Hagain & _).
  eexists. split; [exact Hfirst | exact Hagain].
Defined.

End CoffeeShopViews.
